(** * Karat master data: validation and lifecycle

    A shallow embedding of the karat master controller
    (createKarat, updateKarat, bulkPermanentDeleteKarats,
    bulkUpdateKaratStatus, toggleKaratStatus) and of the Mongoose model
    KaratMaster.js (schema, pre-save hook, isKaratCodeExists,
    getByDivision), with the JavaScript coercions the controller relies
    on (truthiness, ToNumber, isNaN, parseFloat, relational comparison).

    Conventions of the embedding:
    - a JavaScript number is an IEEE-754 binary64 value, [spec_float];
    - a JavaScript string is a [string] of 8-bit code units (ASCII);
    - a request body field is a JSON scalar or [Undefined] when absent;
    - the collection is a list of documents, threaded explicitly;
    - the controller is parametrised by the service it imports;
      KaratMasterService.js itself is modelled from the specification,
      on top of the model's schema, hook and statics. *)

From Stdlib Require Import ZArith Bool List Ascii String DecimalString Lia.
From Stdlib Require Import Floats.SpecFloat.
From Stdlib Require Import Sorting.Sorted Sorting.Permutation.
Import ListNotations.

Local Open Scope string_scope.
Local Open Scope Z_scope.

(* ================================================================== *)
(** ** JavaScript values and coercions *)
(* ================================================================== *)

Module Js.

(** Number values: binary64, precision 53, infinities at exponent 1024. *)
Definition number : Set := spec_float.

Definition NaN : number := S754_nan.
Definition Infinity : number := S754_infinity false.
Definition posZero : number := S754_zero false.

(** [m * 2^e] rounded to the nearest binary64 value, ties to even. *)
Definition roundBinary (m e : Z) : number := binary_normalize 53 1024 m e false.

(** The Number value of the decimal [(-1)^neg * m * 10^e10], [0 <= m].
    For a negative exponent the quotient is computed with 64 extra bits
    and a sticky bit, which is enough for a correctly rounded result. *)
Definition ofDecimal (neg : bool) (m e10 : Z) : number :=
  let signed z := if neg then - z else z in
  if m =? 0 then S754_zero neg
  else if 0 <=? e10 then roundBinary (signed (m * 10 ^ e10)) 0
  else
    let d := 10 ^ (- e10) in
    let s := 64 + Z.log2_up d in
    let n := m * 2 ^ s in
    let sticky := if n mod d =? 0 then 0 else 1 in
    roundBinary (signed (2 * (n / d) + sticky)) (- s - 1).

Definition ofZ (z : Z) : number := roundBinary z 0.

Definition isNaNNumber (x : number) : bool :=
  match x with S754_nan => true | _ => false end.

Definition isZeroNumber (x : number) : bool :=
  match x with S754_zero _ => true | _ => false end.

(** Number::lessThan on two numbers neither of which is NaN. *)
Definition numberLessThan (x y : number) : bool := SFltb x y.

(** *** Strings *)

(** WhiteSpace and LineTerminator code units below 128:
    TAB, LF, VT, FF, CR and SP. *)
Definition isWhiteSpace (c : ascii) : bool :=
  let n := nat_of_ascii c in
  (((9 <=? n) && (n <=? 13)) || (n =? 32))%nat.

Fixpoint trimStart (s : string) : string :=
  match s with
  | String c s' => if isWhiteSpace c then trimStart s' else s
  | EmptyString => EmptyString
  end.

Fixpoint trimEnd (s : string) : string :=
  match s with
  | String c s' =>
      match trimEnd s' with
      | EmptyString => if isWhiteSpace c then EmptyString else String c EmptyString
      | t => String c t
      end
  | EmptyString => EmptyString
  end.

(** String.prototype.trim, on code units below 128. *)
Definition trim (s : string) : string := trimEnd (trimStart s).

Definition upperChar (c : ascii) : ascii :=
  let n := nat_of_ascii c in
  if ((97 <=? n) && (n <=? 122))%nat then ascii_of_nat (n - 32) else c.

(** String.prototype.toUpperCase, on code units below 128: there the
    letters a-z are the only ones it maps. *)
Fixpoint toUpperCase (s : string) : string :=
  match s with
  | String c s' => String (upperChar c) (toUpperCase s')
  | EmptyString => EmptyString
  end.

Fixpoint allChars (p : ascii -> bool) (s : string) : bool :=
  match s with
  | String c s' => p c && allChars p s'
  | EmptyString => true
  end.

(** The strings of the embedding: every code unit is below 128. *)
Definition isAscii (s : string) : bool :=
  allChars (fun c => (nat_of_ascii c <? 128)%nat) s.

(** Array.prototype.join on an array of strings. *)
Fixpoint join (sep : string) (l : list string) : string :=
  match l with
  | [] => ""
  | [x] => x
  | x :: rest => x ++ sep ++ join sep rest
  end.

(** *** Numeric literals in strings *)

Definition digitOf (c : ascii) : option Z :=
  let n := nat_of_ascii c in
  if ((48 <=? n) && (n <=? 57))%nat then Some (Z.of_nat (n - 48)) else None.

Definition hexDigitOf (c : ascii) : option Z :=
  let n := nat_of_ascii c in
  if ((48 <=? n) && (n <=? 57))%nat then Some (Z.of_nat (n - 48))
  else if ((65 <=? n) && (n <=? 70))%nat then Some (Z.of_nat (n - 55))
  else if ((97 <=? n) && (n <=? 102))%nat then Some (Z.of_nat (n - 87))
  else None.

(** Longest run of decimal digits at the head of [s]: the accumulated
    value, the number of digits read, and the rest. *)
Fixpoint scanDigits (acc count : Z) (s : string) : Z * Z * string :=
  match s with
  | String c s' =>
      match digitOf c with
      | Some d => scanDigits (10 * acc + d) (count + 1) s'
      | None => (acc, count, s)
      end
  | EmptyString => (acc, count, s)
  end.

(** All of [s] as digits of the given radix, at least one. *)
Fixpoint scanRadix (radix : Z) (acc : Z) (s : string) : option Z :=
  match s with
  | String c s' =>
      match hexDigitOf c with
      | Some d =>
          if d <? radix then
            match s' with
            | EmptyString => Some (radix * acc + d)
            | _ => scanRadix radix (radix * acc + d) s'
            end
          else None
      | None => None
      end
  | EmptyString => None
  end.

Fixpoint dropPrefix (p s : string) : option string :=
  match p, s with
  | EmptyString, _ => Some s
  | String a p', String b s' => if Ascii.eqb a b then dropPrefix p' s' else None
  | String _ _, EmptyString => None
  end.

Inductive literal : Set :=
| LitInfinity
| LitDecimal (mantissa exponent10 : Z).

(** ExponentPart at the head of [s], when complete: e or E, an
    optional sign, at least one digit. *)
Definition scanExponent (s : string) : option (Z * string) :=
  match s with
  | String c r =>
      if (Ascii.eqb c "e" || Ascii.eqb c "E")%bool then
        let '(neg, r') :=
          match r with
          | String "-" t => (true, t)
          | String "+" t => (false, t)
          | _ => (false, r)
          end in
        let '(x, nx, rest) := scanDigits 0 0 r' in
        if nx =? 0 then None else Some (if neg then - x else x, rest)
      else None
  | EmptyString => None
  end.

(** The longest prefix of [s] that is a StrUnsignedDecimalLiteral,
    with what follows it. *)
Definition scanUnsignedDecimal (s : string) : option (literal * string) :=
  match dropPrefix "Infinity" s with
  | Some rest => Some (LitInfinity, rest)
  | None =>
      let '(i, ni, r1) := scanDigits 0 0 s in
      let mantissa :=
        match r1 with
        | String "." r =>
            let '(m, nf, r2) := scanDigits i 0 r in
            if (ni =? 0) && (nf =? 0) then None else Some (m, nf, r2)
        | _ => if ni =? 0 then None else Some (i, 0, r1)
        end in
      match mantissa with
      | None => None
      | Some (m, nf, r2) =>
          match scanExponent r2 with
          | Some (x, rest) => Some (LitDecimal m (x - nf), rest)
          | None => Some (LitDecimal m (- nf), r2)
          end
      end
  end.

(** The longest prefix of [s] that is a StrDecimalLiteral. *)
Definition scanDecimal (s : string) : option (number * string) :=
  let '(neg, body) :=
    match s with
    | String "-" t => (true, t)
    | String "+" t => (false, t)
    | _ => (false, s)
    end in
  match scanUnsignedDecimal body with
  | Some (LitInfinity, rest) => Some (S754_infinity neg, rest)
  | Some (LitDecimal m e, rest) => Some (ofDecimal neg m e, rest)
  | None => None
  end.

(** NonDecimalIntegerLiteral: 0x, 0o or 0b (either case) and digits. *)
Definition scanNonDecimal (s : string) : option number :=
  match s with
  | String "0" (String p digits) =>
      let radix :=
        if (Ascii.eqb p "x" || Ascii.eqb p "X")%bool then Some 16
        else if (Ascii.eqb p "o" || Ascii.eqb p "O")%bool then Some 8
        else if (Ascii.eqb p "b" || Ascii.eqb p "B")%bool then Some 2
        else None in
      match radix with
      | Some r => option_map ofZ (scanRadix r 0 digits)
      | None => None
      end
  | _ => None
  end.

(** StringToNumber *)
Definition stringToNumber (s : string) : number :=
  match trim s with
  | EmptyString => posZero
  | t =>
      match scanNonDecimal t with
      | Some x => x
      | None =>
          match scanDecimal t with
          | Some (x, EmptyString) => x
          | _ => NaN
          end
      end
  end.

(** parseFloat on a string: leading white space is skipped and the
    longest decimal prefix is read. *)
Definition parseFloatString (s : string) : number :=
  match scanDecimal (trimStart s) with
  | Some (x, _) => x
  | None => NaN
  end.

(** *** Values *)

Inductive value : Set :=
| Undefined
| Null
| Bool (b : bool)
| Num (x : number)
| Str (s : string).

Definition isUndefined (v : value) : bool :=
  match v with Undefined => true | _ => false end.

(** ToBoolean *)
Definition toBoolean (v : value) : bool :=
  match v with
  | Undefined | Null => false
  | Bool b => b
  | Num x => negb (isZeroNumber x || isNaNNumber x)
  | Str s => negb (String.eqb s "")
  end.

(** ToNumber *)
Definition toNumber (v : value) : number :=
  match v with
  | Undefined => NaN
  | Null => posZero
  | Bool true => ofZ 1
  | Bool false => posZero
  | Num x => x
  | Str s => stringToNumber s
  end.

(** The global isNaN. *)
Definition isNaN (v : value) : bool := isNaNNumber (toNumber v).

(** The global parseFloat. Its argument goes through ToString first;
    the string of a number reads back as that number, the sign of a
    zero apart (the string of -0 is 0), and the strings of undefined,
    null and the booleans start no decimal literal. *)
Definition parseFloat (v : value) : number :=
  match v with
  | Str s => parseFloatString s
  | Num x => if isZeroNumber x then posZero else x
  | Undefined | Null | Bool _ => NaN
  end.

(** IsLessThan(x, y): [None] stands for undefined. Two strings are
    compared by code units, anything else as numbers. *)
Definition isLessThan (x y : value) : option bool :=
  match x, y with
  | Str a, Str b => Some (String.ltb a b)
  | _, _ =>
      let nx := toNumber x in
      let ny := toNumber y in
      if (isNaNNumber nx || isNaNNumber ny)%bool then None
      else Some (numberLessThan nx ny)
  end.

(** x < y *)
Definition lt (x y : value) : bool :=
  match isLessThan x y with Some true => true | _ => false end.

(** x > y *)
Definition gt (x y : value) : bool :=
  match isLessThan y x with Some true => true | _ => false end.

(** x >= y *)
Definition ge (x y : value) : bool :=
  match isLessThan x y with Some false => true | _ => false end.

(** x <= y *)
Definition le (x y : value) : bool :=
  match isLessThan y x with Some false => true | _ => false end.

End Js.

(* ================================================================== *)
(** ** Errors *)
(* ================================================================== *)

(** The failure kinds of the error taxonomy. *)
Inductive ErrorKind : Set :=
| RequiredFieldsMissing
| InvalidNumericValue
| InvalidPurityRange
| InvalidValueRange
| InvalidMinMaxRange
| InvalidPurity
| InvalidMinimum
| InvalidMaximum
| DuplicateCode
| NotFound
| IdsRequired
| InvalidIdFormat
| InvalidStatus.

(** What a controller can hand to [next]. *)
Inductive JsError : Set :=
| AppError (message : string) (statusCode : Z) (errorCode : string)
    (** createAppError(message, statusCode, errorCode) *)
| NamedError (name message : string)
    (** an Error object with the given name: the pre-save hook's
        ValidationError, the engine's TypeError and ReferenceError *)
| DocumentInvalid (failures : list (string * string))
    (** the schema's validators failed: path and message of each *)
| DuplicateKey
    (** the unique index on (karatCode, division) refused a write *)
| ServiceFailure (kind : ErrorKind)
    (** a typed failure raised inside the service layer *).

Definition createAppError (message : string) (statusCode : Z) (errorCode : string) : JsError :=
  AppError message statusCode errorCode.

(** The taxonomy kind of the error codes the controller uses. *)
Definition kindOfCode (errorCode : string) : option ErrorKind :=
  if String.eqb errorCode "REQUIRED_FIELDS_MISSING" then Some RequiredFieldsMissing
  else if String.eqb errorCode "INVALID_NUMERIC_VALUES" then Some InvalidNumericValue
  else if String.eqb errorCode "INVALID_PURITY_RANGE" then Some InvalidPurityRange
  else if String.eqb errorCode "INVALID_VALUE_RANGE" then Some InvalidValueRange
  else if String.eqb errorCode "INVALID_MIN_MAX_RANGE" then Some InvalidMinMaxRange
  else if String.eqb errorCode "INVALID_PURITY" then Some InvalidPurity
  else if String.eqb errorCode "INVALID_MINIMUM" then Some InvalidMinimum
  else if String.eqb errorCode "INVALID_MAXIMUM" then Some InvalidMaximum
  else if String.eqb errorCode "IDS_REQUIRED" then Some IdsRequired
  else if String.eqb errorCode "INVALID_ID_FORMAT" then Some InvalidIdFormat
  else if String.eqb errorCode "INVALID_STATUS" then Some InvalidStatus
  else None.

Definition kindOf (e : JsError) : option ErrorKind :=
  match e with
  | AppError _ _ errorCode => kindOfCode errorCode
  | ServiceFailure kind => Some kind
  | NamedError _ _ | DocumentInvalid _ | DuplicateKey => None
  end.

(** Computations that may throw. *)
Definition result (A : Type) : Type := JsError + A.

Definition throw {A : Type} (e : JsError) : result A := inl e.
Definition ret {A : Type} (a : A) : result A := inr a.

Definition bind {A B : Type} (m : result A) (k : A -> result B) : result B :=
  match m with
  | inl e => inl e
  | inr a => k a
  end.

Notation "x <- m ;; k" := (bind m (fun x => k))
  (at level 61, m at next level, right associativity).
Notation "'throw_if' c 'then_throw' e ;; k" :=
  (if c then throw e else k)
  (at level 61, c at next level, e at next level, right associativity).

(* ================================================================== *)
(** ** The model: KaratMaster.js *)
(* ================================================================== *)

Module KaratMaster.
Import Js.

(** Identifiers are kept and compared in their string form, the
    canonical one (lower-case hexadecimal) being the one in use. *)
Definition ObjectId : Set := string.

Definition isHexDigit (c : ascii) : bool :=
  match hexDigitOf c with Some _ => true | None => false end.

(** The storage-identifier format of a string: 24 hexadecimal digits. *)
Definition isValidObjectId (s : string) : bool :=
  (String.length s =? 24)%nat && allChars isHexDigit s.

(** The cast of a schema path of type ObjectId. *)
Definition castObjectId (v : value) : option ObjectId :=
  match v with
  | Str s => if isValidObjectId s then Some s else None
  | _ => None
  end.

(** A document of the collection (timestamps left out). *)
Record doc : Set := mkDoc {
  _id : ObjectId;
  karatCode : string;
  division : ObjectId;
  description : string;
  standardPurity : number;
  minimum : number;
  maximum : number;
  isActive : bool;
  status : string;
  createdBy : ObjectId;
  updatedBy : option ObjectId
}.

Definition setKaratCode (d : doc) (v : string) : doc :=
  mkDoc (_id d) v (division d) (description d) (standardPurity d) (minimum d)
        (maximum d) (isActive d) (status d) (createdBy d) (updatedBy d).
Definition setDivision (d : doc) (v : ObjectId) : doc :=
  mkDoc (_id d) (karatCode d) v (description d) (standardPurity d) (minimum d)
        (maximum d) (isActive d) (status d) (createdBy d) (updatedBy d).
Definition setDescription (d : doc) (v : string) : doc :=
  mkDoc (_id d) (karatCode d) (division d) v (standardPurity d) (minimum d)
        (maximum d) (isActive d) (status d) (createdBy d) (updatedBy d).
Definition setStandardPurity (d : doc) (v : number) : doc :=
  mkDoc (_id d) (karatCode d) (division d) (description d) v (minimum d)
        (maximum d) (isActive d) (status d) (createdBy d) (updatedBy d).
Definition setMinimum (d : doc) (v : number) : doc :=
  mkDoc (_id d) (karatCode d) (division d) (description d) (standardPurity d) v
        (maximum d) (isActive d) (status d) (createdBy d) (updatedBy d).
Definition setMaximum (d : doc) (v : number) : doc :=
  mkDoc (_id d) (karatCode d) (division d) (description d) (standardPurity d)
        (minimum d) v (isActive d) (status d) (createdBy d) (updatedBy d).
Definition setIsActive (d : doc) (v : bool) : doc :=
  mkDoc (_id d) (karatCode d) (division d) (description d) (standardPurity d)
        (minimum d) (maximum d) v (status d) (createdBy d) (updatedBy d).
Definition setStatus (d : doc) (v : string) : doc :=
  mkDoc (_id d) (karatCode d) (division d) (description d) (standardPurity d)
        (minimum d) (maximum d) (isActive d) v (createdBy d) (updatedBy d).
Definition setUpdatedBy (d : doc) (v : ObjectId) : doc :=
  mkDoc (_id d) (karatCode d) (division d) (description d) (standardPurity d)
        (minimum d) (maximum d) (isActive d) (status d) (createdBy d) (Some v).

(** *** Schema: setters *)

(** karatCode has trim and uppercase; the setter declared last runs first. *)
Definition karatCodeSetter (v : string) : string := trim (toUpperCase v).

(** description has trim. *)
Definition descriptionSetter (v : string) : string := trim v.

(** *** Schema: validators, the first failing one of each path *)

Definition isCodeChar (c : ascii) : bool :=
  let n := nat_of_ascii c in
  (((65 <=? n) && (n <=? 90)) || ((48 <=? n) && (n <=? 57)))%nat.

(** /^[A-Z0-9]+$/ *)
Definition matchesCodePattern (s : string) : bool :=
  negb (String.eqb s "") && allChars isCodeChar s.

Definition validateKaratCode (v : string) : option string :=
  if String.eqb v "" then Some "Karat code is required"
  else if (10 <? String.length v)%nat then Some "Karat code cannot exceed 10 characters"
  else if negb (matchesCodePattern v)
       then Some "Karat code should contain only uppercase letters and numbers"
  else None.

Definition validateDescription (v : string) : option string :=
  if String.eqb v "" then Some "Description is required"
  else if (200 <? String.length v)%nat then Some "Description cannot exceed 200 characters"
  else None.

(** A Number path does not hold NaN: the cast refuses it. *)
Definition validateStandardPurity (v : number) : option string :=
  if isNaNNumber v then Some "Cast to Number failed"
  else if negb (ge (Num v) (Num (ofZ 0))) then Some "Standard purity cannot be negative"
  else if negb (le (Num v) (Num (ofZ 100))) then Some "Standard purity cannot exceed 100%"
  else None.

Definition validateMinimum (v : number) : option string :=
  if isNaNNumber v then Some "Cast to Number failed"
  else if negb (ge (Num v) (Num (ofZ 0))) then Some "Minimum value cannot be negative"
  else None.

Definition validateMaximum (v : number) : option string :=
  if isNaNNumber v then Some "Cast to Number failed"
  else if negb (ge (Num v) (Num (ofZ 0))) then Some "Maximum value cannot be negative"
  else None.

(** enum: ["active", "inactive"] *)
Definition validateStatus (v : string) : option string :=
  if (String.eqb v "active" || String.eqb v "inactive")%bool then None
  else Some "not a valid enum value".

Definition failure (path : string) (r : option string) : list (string * string) :=
  match r with
  | Some message => [(path, message)]
  | None => []
  end.

Definition validate (d : doc) : list (string * string) :=
  (failure "karatCode" (validateKaratCode (karatCode d))
   ++ failure "description" (validateDescription (description d))
   ++ failure "standardPurity" (validateStandardPurity (standardPurity d))
   ++ failure "minimum" (validateMinimum (minimum d))
   ++ failure "maximum" (validateMaximum (maximum d))
   ++ failure "status" (validateStatus (status d)))%list.

(** *** Pre-save middleware *)

Definition preSave (d : doc) : result doc :=
  let this :=
    if negb (String.eqb (karatCode d) "")
    then setKaratCode d (toUpperCase (karatCode d))
    else d in
  if ge (Num (minimum this)) (Num (maximum this))
  then throw (NamedError "ValidationError" "Minimum value must be less than maximum value")
  else ret this.

(** *** The collection *)

Definition collection : Set := list doc.

Definition hasId (id : ObjectId) (d : doc) : bool := String.eqb (_id d) id.

Definition findOne (query : doc -> bool) (c : collection) : option doc := List.find query c.

Definition findById (id : ObjectId) (c : collection) : option doc := findOne (hasId id) c.

(** The compound unique index { karatCode: 1, division: 1 }. *)
Definition sameKey (a b : doc) : bool :=
  String.eqb (karatCode a) (karatCode b) && String.eqb (division a) (division b).

Definition insertOne (d : doc) (c : collection) : result collection :=
  if existsb (sameKey d) c then throw DuplicateKey else ret (c ++ [d])%list.

(** A write to a stored document touches the index only when it
    changes the indexed pair. *)
Definition replaceOne (old d : doc) (c : collection) : result collection :=
  if negb (sameKey old d) && existsb (fun o => sameKey d o && negb (hasId (_id d) o)) c
  then throw DuplicateKey
  else ret (map (fun o => if hasId (_id d) o then d else o) c).

(** document.save(): the schema's validation, the pre-save hook, the
    write. [old] is the stored document when there is one. *)
Definition save (old : option doc) (d : doc) (c : collection) : result (doc * collection) :=
  match validate d with
  | [] =>
      saved <- preSave d ;;
      c' <- match old with
            | None => insertOne saved c
            | Some o => replaceOne o saved c
            end ;;
      ret (saved, c')
  | failures => throw (DocumentInvalid failures)
  end.

(** new KaratMaster({...}): setters and defaults. *)
Definition construct (newId : ObjectId) (code : string) (div : ObjectId) (descr : string)
           (purity lo hi : number) (admin : ObjectId) : doc :=
  {| _id := newId;
     karatCode := karatCodeSetter code;
     division := div;
     description := descriptionSetter descr;
     standardPurity := purity;
     minimum := lo;
     maximum := hi;
     isActive := true;
     status := "active";
     createdBy := admin;
     updatedBy := None |}.

(** *** Statics *)

(** KaratMasterSchema.statics.isKaratCodeExists; a null excludeId is [None].
    findOne casts the filter through the schema, so the setters of
    karatCode run on the value the static has upper-cased. *)
Definition isKaratCodeExists (c : collection) (code : string) (divisionId : ObjectId)
           (excludeId : option ObjectId) : bool :=
  let query (d : doc) :=
    String.eqb (karatCode d) (karatCodeSetter (toUpperCase code))
    && String.eqb (division d) divisionId
    && match excludeId with
       | Some e => if toBoolean (Str e) then negb (hasId e d) else true
       | None => true
       end in
  match findOne query c with
  | Some _ => true
  | None => false
  end.

Fixpoint insertByCode (d : doc) (l : list doc) : list doc :=
  match l with
  | [] => [d]
  | x :: rest =>
      if String.leb (karatCode d) (karatCode x) then d :: l
      else x :: insertByCode d rest
  end.

(** sort({ karatCode: 1 }) *)
Definition sortByCode (l : list doc) : list doc := fold_right insertByCode [] l.

(** KaratMasterSchema.statics.getByDivision; populate, which joins the
    division collection, is left out. *)
Definition getByDivision (c : collection) (divisionId : ObjectId) : list doc :=
  sortByCode
    (filter (fun d => String.eqb (division d) divisionId
                      && String.eqb (status d) "active"
                      && Bool.eqb (isActive d) true) c).

End KaratMaster.

(* ================================================================== *)
(** ** What the controller exchanges with the service *)
(* ================================================================== *)

(** The object createKarat hands to the service. *)
Module KaratData.
Record t : Set := make {
  karatCode : string;
  division : Js.value;
  description : string;
  standardPurity : Js.number;
  minimum : Js.number;
  maximum : Js.number
}.
End KaratData.

(** The body of an update request, also what updateKarat hands on:
    the schema's settable paths, [Js.Undefined] where the body has none. *)
Module UpdateData.
Record t : Set := make {
  karatCode : Js.value;
  division : Js.value;
  description : Js.value;
  standardPurity : Js.value;
  minimum : Js.value;
  maximum : Js.value;
  status : Js.value;
  isActive : Js.value
}.

Definition empty : t :=
  make Js.Undefined Js.Undefined Js.Undefined Js.Undefined
       Js.Undefined Js.Undefined Js.Undefined Js.Undefined.

Definition setKaratCode (u : t) (v : Js.value) : t :=
  make v (division u) (description u) (standardPurity u) (minimum u) (maximum u)
       (status u) (isActive u).
Definition setDescription (u : t) (v : Js.value) : t :=
  make (karatCode u) (division u) v (standardPurity u) (minimum u) (maximum u)
       (status u) (isActive u).
Definition setStandardPurity (u : t) (v : Js.value) : t :=
  make (karatCode u) (division u) (description u) v (minimum u) (maximum u)
       (status u) (isActive u).
Definition setMinimum (u : t) (v : Js.value) : t :=
  make (karatCode u) (division u) (description u) (standardPurity u) v (maximum u)
       (status u) (isActive u).
Definition setMaximum (u : t) (v : Js.value) : t :=
  make (karatCode u) (division u) (description u) (standardPurity u) (minimum u) v
       (status u) (isActive u).
Definition setStatus (u : t) (v : Js.value) : t :=
  make (karatCode u) (division u) (description u) (standardPurity u) (minimum u)
       (maximum u) v (isActive u).
Definition setIsActive (u : t) (v : Js.value) : t :=
  make (karatCode u) (division u) (description u) (standardPurity u) (minimum u)
       (maximum u) (status u) v.
End UpdateData.

(** The service as the controller sees it: the five functions it calls.
    A call either throws, leaving the collection as it was, or returns
    its value with the collection after the call. [createKarat] is also
    given the identifier the store assigns to the new document. *)
Module Service.
Import KaratMaster.

Record t : Type := make {
  createKarat :
    collection -> ObjectId -> KaratData.t -> ObjectId -> result (doc * collection);
  getKaratById :
    collection -> ObjectId -> result doc;
  updateKarat :
    collection -> ObjectId -> UpdateData.t -> ObjectId -> result (doc * collection);
  bulkPermanentDelete :
    collection -> list ObjectId -> result (nat * collection);
  bulkUpdateStatus :
    collection -> list ObjectId -> string -> ObjectId -> result (nat * nat * collection)
}.
End Service.

(* ================================================================== *)
(** ** The service: KaratMasterService.js *)
(* ================================================================== *)

Module KaratMasterService.
Import Js KaratMaster.

(** Modelled from the spec: how a supplied value becomes the number of
    a numeric field ("must parse as numbers"); [None] when it does not.
    KaratMasterService.js, which sets the fields of an update on the
    stored record, is missing. *)
Definition castNumber (v : value) : option number :=
  match v with
  | Num x => Some x
  | Str s => if String.eqb s "" then None else Some (stringToNumber s)
  | Bool b => Some (toNumber (Bool b))
  | Undefined | Null => None
  end.

(** Modelled from the spec: a text field (code, description, status)
    takes a string; see [castNumber] for what is missing. *)
Definition castString (v : value) : option string :=
  match v with
  | Str s => Some s
  | _ => None
  end.

(** Modelled from the spec: the active flag takes a boolean, or one of
    the usual spellings of one; see [castNumber] for what is missing. *)
Definition castBoolean (v : value) : option bool :=
  match v with
  | Bool b => Some b
  | Str s =>
      if (String.eqb s "true" || String.eqb s "1" || String.eqb s "yes")%bool then Some true
      else if (String.eqb s "false" || String.eqb s "0" || String.eqb s "no")%bool
           then Some false
      else None
  | Num x =>
      if isZeroNumber x then Some false
      else if SFeqb x (ofZ 1) then Some true
      else None
  | Undefined | Null => None
  end.

(** Modelled from the spec: one field of a partial update laid over
    the current record, an omitted field keeping the existing value. *)
Definition applyField {A : Type} (path : string) (cast : value -> option A)
           (set : doc -> A -> doc) (v : value) (d : doc) : result doc :=
  if isUndefined v then ret d
  else match cast v with
       | Some a => ret (set d a)
       | None => throw (DocumentInvalid [(path, "Cast failed")])
       end.

(** Modelled from the spec: the merged values of an update, strings
    normalised as the schema normalises them. *)
Definition merge (cur : doc) (u : UpdateData.t) : result doc :=
  d <- applyField "karatCode" castString
         (fun d s => setKaratCode d (karatCodeSetter s)) (UpdateData.karatCode u) cur ;;
  d <- applyField "division" castObjectId setDivision (UpdateData.division u) d ;;
  d <- applyField "description" castString
         (fun d s => setDescription d (descriptionSetter s)) (UpdateData.description u) d ;;
  d <- applyField "standardPurity" castNumber setStandardPurity
         (UpdateData.standardPurity u) d ;;
  d <- applyField "minimum" castNumber setMinimum (UpdateData.minimum u) d ;;
  d <- applyField "maximum" castNumber setMaximum (UpdateData.maximum u) d ;;
  d <- applyField "status" castString setStatus (UpdateData.status u) d ;;
  applyField "isActive" castBoolean setIsActive (UpdateData.isActive u) d.

(** Modelled from the spec: getById(id) fetches a record and fails
    with NotFound if it is absent. KaratMasterService.getKaratById is
    not among the sources. *)
Definition getKaratById (c : collection) (id : ObjectId) : result doc :=
  match findById id c with
  | Some d => ret d
  | None => throw (ServiceFailure NotFound)
  end.

(** Modelled from the spec: create(fields, actorId) runs the
    uniqueness resolver after the validator (which is the
    controller's) and persists a new record with createdBy = actorId
    and status and active defaulted. KaratMasterService.createKarat is
    not among the sources; persisting goes through the model's
    schema and pre-save hook. *)
Definition createKarat (c : collection) (newId : ObjectId) (data : KaratData.t)
           (adminId : ObjectId) : result (doc * collection) :=
  match castObjectId (KaratData.division data) with
  | None => throw (DocumentInvalid [("division", "Cast to ObjectId failed")])
  | Some div =>
      throw_if isKaratCodeExists c (KaratData.karatCode data) div None
      then_throw ServiceFailure DuplicateCode ;;
      save None
           (construct newId (KaratData.karatCode data) div (KaratData.description data)
                      (KaratData.standardPurity data) (KaratData.minimum data)
                      (KaratData.maximum data) adminId)
           c
  end.

(** Modelled from the spec: update(id, partialFields, actorId) loads
    the current record (NotFound if missing), checks minimum < maximum
    on the resolved final pair (InvalidMinMaxRange), runs the
    uniqueness resolver if code or division changed (DuplicateCode),
    and persists with updatedBy = actorId.
    KaratMasterService.updateKarat is not among the sources. *)
Definition updateKarat (c : collection) (id : ObjectId) (u : UpdateData.t)
           (adminId : ObjectId) : result (doc * collection) :=
  cur <- getKaratById c id ;;
  merged <- merge cur u ;;
  throw_if ge (Num (minimum merged)) (Num (maximum merged))
  then_throw ServiceFailure InvalidMinMaxRange ;;
  throw_if negb (sameKey cur merged)
           && isKaratCodeExists c (karatCode merged) (division merged) (Some id)
  then_throw ServiceFailure DuplicateCode ;;
  save (Some cur) (setUpdatedBy merged adminId) c.

(** Modelled from the spec: a record matches a bulk operation when
    its id is among the given ones. *)
Definition oneOf (ids : list ObjectId) (d : doc) : bool :=
  existsb (fun id => hasId id d) ids.

(** Modelled from the spec: bulkHardDelete(ids) removes all matching
    records and returns the count actually deleted.
    KaratMasterService.bulkPermanentDelete is not among the sources. *)
Definition bulkPermanentDelete (c : collection) (ids : list ObjectId)
  : result (nat * collection) :=
  ret (List.length (filter (oneOf ids) c), filter (fun d => negb (oneOf ids d)) c).

(** Modelled from the spec: the record already has the status and
    the active flag that goes with it. *)
Definition hasStatus (s : string) (d : doc) : bool :=
  String.eqb (status d) s && Bool.eqb (isActive d) (String.eqb s "active").

(** Modelled from the spec: bulkUpdateStatus(ids, status, actorId)
    applies the status and the synchronized active flag to every
    matching record, stamping updatedBy; matched = found, modified =
    actually changed value. KaratMasterService.bulkUpdateStatus is not
    among the sources. *)
Definition bulkUpdateStatus (c : collection) (ids : list ObjectId) (s : string)
           (adminId : ObjectId) : result (nat * nat * collection) :=
  let matched := filter (oneOf ids) c in
  let modified := filter (fun d => negb (hasStatus s d)) matched in
  let apply d :=
    if oneOf ids d
    then setUpdatedBy (setIsActive (setStatus d s) (String.eqb s "active")) adminId
    else d in
  ret (List.length matched, List.length modified, map apply c).

(** Modelled from the spec: the five functions above as the service
    the controller imports. *)
Definition service : Service.t :=
  Service.make createKarat getKaratById updateKarat bulkPermanentDelete bulkUpdateStatus.

End KaratMasterService.

(* ================================================================== *)
(** ** The controller *)
(* ================================================================== *)

Module KaratMasterController.
Import Js KaratMaster.

(** req.body of a create request. *)
Module CreateBody.
Record t : Set := make {
  karatCode : value;
  division : value;
  description : value;
  standardPurity : value;
  minimum : value;
  maximum : value
}.
End CreateBody.

(** req.body.ids: an array of identifiers, or anything else. *)
Inductive idsField : Set :=
| NotArray (v : value)
| IdArray (items : list string).

(** The data member of a response. *)
Inductive payload : Set :=
| Karat (karat : doc)
| DeleteResult (deletedCount : nat)
| StatusCounts (matchedCount modifiedCount : nat).

(** What a handler does with its request: res.status(..).json(..) or
    next(error). *)
Inductive outcome : Set :=
| Json (statusCode : Z) (message : string) (data : payload)
| Next (error : JsError).

(** try { ... } catch (error) { next(error); } *)
Definition handle (c : collection) (body : result (outcome * collection))
  : outcome * collection :=
  match body with
  | inl error => (Next error, c)
  | inr done => done
  end.

Definition zero : value := Num (ofZ 0).
Definition hundred : value := Num (ofZ 100).

(** callee.trim(): a method of strings only. A boolean or a number has
    no trim, and the TypeError names the callee as the source writes
    it; undefined and null have no properties at all. *)
Definition callTrim (callee : string) (v : value) : result string :=
  match v with
  | Str s => ret (trim s)
  | Bool _ | Num _ => throw (NamedError "TypeError" (callee ++ ".trim is not a function"))
  | Undefined =>
      throw (NamedError "TypeError" "Cannot read properties of undefined (reading 'trim')")
  | Null => throw (NamedError "TypeError" "Cannot read properties of null (reading 'trim')")
  end.

(** A route parameter: a string, or [None] when the route has none. *)
Definition requireId (id : option string) : result string :=
  match id with
  | Some s =>
      throw_if negb (toBoolean (Str s))
      then_throw createAppError "Karat ID is required" 400 "ID_REQUIRED" ;;
      ret s
  | None => throw (createAppError "Karat ID is required" 400 "ID_REQUIRED")
  end.

Definition natToString (n : nat) : string := NilEmpty.string_of_uint (Nat.to_uint n).

Section WithService.

(** import KaratMasterService from "../../services/modules/KaratMasterService.js" *)
Variable KaratMasterService : Service.t.

Definition createKarat (c : collection) (newId : ObjectId) (body : CreateBody.t)
           (adminId : ObjectId) : outcome * collection :=
  let karatCode := CreateBody.karatCode body in
  let division := CreateBody.division body in
  let description := CreateBody.description body in
  let standardPurity := CreateBody.standardPurity body in
  let minimum := CreateBody.minimum body in
  let maximum := CreateBody.maximum body in
  handle c (
    throw_if negb (toBoolean karatCode)
             || negb (toBoolean division)
             || negb (toBoolean description)
             || isUndefined standardPurity
             || isUndefined minimum
             || isUndefined maximum
    then_throw createAppError
      "All fields are required: karatCode, division, description, standardPurity, minimum, maximum"
      400 "REQUIRED_FIELDS_MISSING" ;;
    throw_if isNaN standardPurity || isNaN minimum || isNaN maximum
    then_throw createAppError
      "Standard purity, minimum, and maximum must be valid numbers"
      400 "INVALID_NUMERIC_VALUES" ;;
    throw_if lt standardPurity zero || gt standardPurity hundred
    then_throw createAppError
      "Standard purity must be between 0 and 100" 400 "INVALID_PURITY_RANGE" ;;
    throw_if lt minimum zero || lt maximum zero
    then_throw createAppError
      "Minimum and maximum values cannot be negative" 400 "INVALID_VALUE_RANGE" ;;
    throw_if ge minimum maximum
    then_throw createAppError
      "Minimum value must be less than maximum value" 400 "INVALID_MIN_MAX_RANGE" ;;
    code <- callTrim "karatCode" karatCode ;;
    descr <- callTrim "description" description ;;
    let karatData :=
      KaratData.make code division descr
                     (parseFloat standardPurity) (parseFloat minimum)
                     (parseFloat maximum) in
    created <- Service.createKarat KaratMasterService c newId karatData adminId ;;
    ret (Json 201 "Karat created successfully" (Karat (fst created)), snd created)).

(** The three numeric blocks and the two trims of updateKarat, which
    rewrite updateData in place. *)
Definition normalizeUpdate (updateData : UpdateData.t) : result UpdateData.t :=
  updateData <-
    (let v := UpdateData.standardPurity updateData in
     if negb (isUndefined v) then
       throw_if isNaN v
       then_throw createAppError "Standard purity must be a valid number"
                                 400 "INVALID_PURITY" ;;
       throw_if lt v zero || gt v hundred
       then_throw createAppError "Standard purity must be between 0 and 100"
                                 400 "INVALID_PURITY_RANGE" ;;
       ret (UpdateData.setStandardPurity updateData (Num (parseFloat v)))
     else ret updateData) ;;
  updateData <-
    (let v := UpdateData.minimum updateData in
     if negb (isUndefined v) then
       throw_if isNaN v || lt v zero
       then_throw createAppError "Minimum must be a valid non-negative number"
                                 400 "INVALID_MINIMUM" ;;
       ret (UpdateData.setMinimum updateData (Num (parseFloat v)))
     else ret updateData) ;;
  updateData <-
    (let v := UpdateData.maximum updateData in
     if negb (isUndefined v) then
       throw_if isNaN v || lt v zero
       then_throw createAppError "Maximum must be a valid non-negative number"
                                 400 "INVALID_MAXIMUM" ;;
       ret (UpdateData.setMaximum updateData (Num (parseFloat v)))
     else ret updateData) ;;
  updateData <-
    (let v := UpdateData.karatCode updateData in
     if toBoolean v then
       s <- callTrim "updateData.karatCode" v ;;
       ret (UpdateData.setKaratCode updateData (Str s))
     else ret updateData) ;;
  (let v := UpdateData.description updateData in
   if toBoolean v then
     s <- callTrim "updateData.description" v ;;
     ret (UpdateData.setDescription updateData (Str s))
   else ret updateData).

Definition updateKarat (c : collection) (id : option string)
           (updateData : UpdateData.t) (adminId : ObjectId) : outcome * collection :=
  handle c (
    id <- requireId id ;;
    updateData <- normalizeUpdate updateData ;;
    updated <- Service.updateKarat KaratMasterService c id updateData adminId ;;
    ret (Json 200 "Karat updated successfully" (Karat (fst updated)), snd updated)).

(** !ids || !Array.isArray(ids) || ids.length === 0 *)
Definition idsMissing (ids : idsField) : bool :=
  match ids with
  | NotArray _ => true
  | IdArray items => (List.length items =? 0)%nat
  end.

Definition itemsOf (ids : idsField) : list string :=
  match ids with
  | NotArray _ => []
  | IdArray items => items
  end.

(** What the names used by the handlers resolve to in the module:
    [mongoose] is the value of mongoose.Types.ObjectId.isValid when
    the name mongoose is bound. *)
Record scope : Type := { mongoose : option (string -> bool) }.

(** The file's imports are KaratMasterService and createAppError;
    nothing in it binds the name mongoose. *)
Definition moduleScope : scope := {| mongoose := None |}.

(** ids.filter((id) => !mongoose.Types.ObjectId.isValid(id)): the
    callback looks the name up each time it is called. *)
Fixpoint filterInvalid (sc : scope) (ids : list string) : result (list string) :=
  match ids with
  | [] => ret []
  | id :: rest =>
      match mongoose sc with
      | None => throw (NamedError "ReferenceError" "mongoose is not defined")
      | Some isValid =>
          kept <- filterInvalid sc rest ;;
          ret (if negb (isValid id) then id :: kept else kept)
      end
  end.

Definition bulkPermanentDeleteKaratsIn (sc : scope) (c : collection) (ids : idsField)
  : outcome * collection :=
  handle c (
    throw_if idsMissing ids
    then_throw createAppError "IDs array is required and cannot be empty"
                              400 "IDS_REQUIRED" ;;
    invalidIds <- filterInvalid sc (itemsOf ids) ;;
    throw_if (0 <? List.length invalidIds)%nat
    then_throw createAppError ("Invalid ID format for: " ++ join ", " invalidIds)
                              400 "INVALID_ID_FORMAT" ;;
    deleted <- Service.bulkPermanentDelete KaratMasterService c (itemsOf ids) ;;
    ret (Json 200
              (natToString (fst deleted) ++ " karats permanently deleted successfully")
              (DeleteResult (fst deleted)),
         snd deleted)).

Definition bulkPermanentDeleteKarats (c : collection) (ids : idsField)
  : outcome * collection :=
  bulkPermanentDeleteKaratsIn moduleScope c ids.

(** ["active", "inactive"].includes(status) *)
Definition isStatusName (v : value) : bool :=
  match v with
  | Str s => (String.eqb s "active" || String.eqb s "inactive")%bool
  | _ => false
  end.

Definition stringOf (v : value) : string :=
  match v with
  | Str s => s
  | _ => ""
  end.

Definition bulkUpdateKaratStatus (c : collection) (ids : idsField) (status : value)
           (adminId : ObjectId) : outcome * collection :=
  handle c (
    throw_if idsMissing ids
    then_throw createAppError "IDs array is required and cannot be empty"
                              400 "IDS_REQUIRED" ;;
    throw_if negb (toBoolean status) || negb (isStatusName status)
    then_throw createAppError "Status must be either 'active' or 'inactive'"
                              400 "INVALID_STATUS" ;;
    updated <- Service.bulkUpdateStatus KaratMasterService c (itemsOf ids)
                                        (stringOf status) adminId ;;
    let '(matchedCount, modifiedCount, c') := updated in
    ret (Json 200 (natToString modifiedCount ++ " karats updated successfully")
              (StatusCounts matchedCount modifiedCount),
         c')).

Definition toggleKaratStatus (c : collection) (id : option string) (adminId : ObjectId)
  : outcome * collection :=
  handle c (
    id <- requireId id ;;
    currentKarat <- Service.getKaratById KaratMasterService c id ;;
    let newStatus :=
      if String.eqb (KaratMaster.status currentKarat) "active"
      then "inactive" else "active" in
    updated <- Service.updateKarat KaratMasterService c id
                 (UpdateData.setIsActive
                    (UpdateData.setStatus UpdateData.empty (Str newStatus))
                    (Bool (String.eqb newStatus "active")))
                 adminId ;;
    ret (Json 200 ("Karat status updated to " ++ newStatus) (Karat (fst updated)),
         snd updated)).

End WithService.

End KaratMasterController.

(* ================================================================== *)
(** ** The controller: the handlers that read and delete *)
(* ================================================================== *)

Module KaratMasterControllerMore.
Import Js KaratMaster KaratMasterController.

(** What getKaratsByDivision does with its request: the list of records
    in res.status(200).json(..), or next(error). *)
Inductive listOutcome : Set :=
| JsonList (statusCode : Z) (message : string) (data : list doc)
| NextList (error : JsError).

(** req.params.divisionId: a string, or [None] when the route has none. *)
Definition requireDivisionId (divisionId : option string) : result string :=
  match divisionId with
  | Some s =>
      throw_if negb (toBoolean (Str s))
      then_throw createAppError "Division ID is required" 400 "DIVISION_ID_REQUIRED" ;;
      ret s
  | None => throw (createAppError "Division ID is required" 400 "DIVISION_ID_REQUIRED")
  end.

Section WithService.

(** import KaratMasterService from "../../services/modules/KaratMasterService.js":
    getKaratById as in [Service.t], and the three functions of the
    service that these handlers call besides. *)
Variable KaratMasterService : Service.t.
Variable serviceDeleteKarat :
  collection -> ObjectId -> ObjectId -> result (doc * collection).
Variable servicePermanentDeleteKarat :
  collection -> ObjectId -> result (doc * collection).
Variable serviceGetKaratsByDivision :
  collection -> ObjectId -> result (list doc).

Definition getKarat (c : collection) (id : option string) : outcome * collection :=
  handle c (
    id <- requireId id ;;
    karat <- Service.getKaratById KaratMasterService c id ;;
    ret (Json 200 "Karat fetched successfully" (Karat karat), c)).

Definition deleteKarat (c : collection) (id : option string) (adminId : ObjectId)
  : outcome * collection :=
  handle c (
    id <- requireId id ;;
    deletedKarat <- serviceDeleteKarat c id adminId ;;
    ret (Json 200 "Karat deleted successfully" (Karat (fst deletedKarat)),
         snd deletedKarat)).

Definition permanentDeleteKarat (c : collection) (id : option string)
  : outcome * collection :=
  handle c (
    id <- requireId id ;;
    deletedKarat <- servicePermanentDeleteKarat c id ;;
    ret (Json 200 "Karat permanently deleted successfully" (Karat (fst deletedKarat)),
         snd deletedKarat)).

Definition getKaratsByDivision (c : collection) (divisionId : option string)
  : listOutcome :=
  match (divisionId <- requireDivisionId divisionId ;;
         serviceGetKaratsByDivision c divisionId) with
  | inl error => NextList error
  | inr karats => JsonList 200 "Karats fetched successfully" karats
  end.

End WithService.

End KaratMasterControllerMore.

(* ================================================================== *)
(** ** The application: CORS *)
(* ================================================================== *)

Module App.
Import Js.

Definition allowedOrigins : list string :=
  ["http://localhost:5173"; "http://localhost:3000"; "http://localhost:8080"].

(** corsOptions.origin: the two arguments it passes to callback, for
    the Origin header of a request ([None] when there is none). *)
Definition corsOrigin (origin : option string) : option JsError * bool :=
  let absent :=
    match origin with
    | Some o => negb (toBoolean (Str o))
    | None => true
    end in
  let listed :=
    match origin with
    | Some o => existsb (String.eqb o) allowedOrigins
    | None => false
    end in
  if (absent || listed)%bool then (None, true) else (None, true).

End App.

(* ================================================================== *)
(** ** Sample data *)
(* ================================================================== *)

Module Sample.
Import Js KaratMaster KaratMasterController.

Definition divisionA : ObjectId := "64b000000000000000000001".
Definition divisionB : ObjectId := "64b000000000000000000002".
Definition admin : ObjectId := "64a000000000000000000001".
Definition id1 : ObjectId := "650000000000000000000001".
Definition id2 : ObjectId := "650000000000000000000002".
Definition id3 : ObjectId := "650000000000000000000003".

Definition num (s : string) : number := stringToNumber s.

(** { code: "k18", description: "18 Karat Gold", standardPurity: 75.0,
      minimum: 74.5, maximum: 75.5 } as stored. *)
Definition k18 : doc :=
  {| _id := id1; karatCode := "K18"; division := divisionA;
     description := "18 Karat Gold";
     standardPurity := num "75.0"; minimum := num "74.5"; maximum := num "75.5";
     isActive := true; status := "active";
     createdBy := admin; updatedBy := None |}.

Definition k22 : doc :=
  {| _id := id2; karatCode := "K22"; division := divisionA;
     description := "22 Karat Gold";
     standardPurity := num "91.6"; minimum := num "91"; maximum := num "92";
     isActive := false; status := "inactive";
     createdBy := admin; updatedBy := None |}.

Definition k14 : doc :=
  {| _id := id3; karatCode := "K14"; division := divisionA;
     description := "14 Karat Gold";
     standardPurity := num "58.5"; minimum := num "58"; maximum := num "59";
     isActive := true; status := "active";
     createdBy := admin; updatedBy := None |}.

Definition k18Body : CreateBody.t :=
  CreateBody.make (Str " k18 ") (Str divisionA) (Str "18 Karat Gold")
                  (Num (num "75.0")) (Num (num "74.5")) (Num (num "75.5")).

(** All numeric fields sent as text, minimum "10" above maximum "9". *)
Definition textRangeBody : CreateBody.t :=
  CreateBody.make (Str "K22") (Str divisionA) (Str "22 Karat Gold")
                  (Str "91.6") (Str "10") (Str "9").

(** All numeric fields sent as text, minimum "9" below maximum "10". *)
Definition textOrderedBody : CreateBody.t :=
  CreateBody.make (Str "K22") (Str divisionA) (Str "22 Karat Gold")
                  (Str "91.6") (Str "9") (Str "10").

Definition zeroBody : CreateBody.t :=
  CreateBody.make (Str "K0") (Str divisionA) (Str "Zero")
                  (Num (ofZ 0)) (Num (ofZ 0)) (Num (ofZ 0)).

End Sample.

(* ================================================================== *)
(** ** Notions used in the statements *)
(* ================================================================== *)

Import Js KaratMaster KaratMasterController.

Definition requiredFieldsError : JsError :=
  createAppError
    "All fields are required: karatCode, division, description, standardPurity, minimum, maximum"
    400 "REQUIRED_FIELDS_MISSING".

Definition minMaxRangeError : JsError :=
  createAppError "Minimum value must be less than maximum value" 400 "INVALID_MIN_MAX_RANGE".

(** The service's createKarat never reports a failure of the given kind. *)
Definition createNeverReports (svc : Service.t) (kind : ErrorKind) : Prop :=
  forall c newId data adminId e,
    Service.createKarat svc c newId data adminId = inl e -> kindOf e <> Some kind.

(** Ascending order of karatCode. *)
Definition codeLe (a b : doc) : Prop := String.leb (karatCode a) (karatCode b) = true.

(** The filter of getByDivision. *)
Definition activeIn (divisionId : ObjectId) (d : doc) : bool :=
  String.eqb (division d) divisionId
  && String.eqb (status d) "active"
  && Bool.eqb (isActive d) true.

(** A string that does not start with white space. *)
Definition noLeadingSpace (s : string) : Prop :=
  match s with
  | String c _ => isWhiteSpace c = false
  | EmptyString => True
  end.

(** A numeric field of an update passes the controller's checks: it
    is omitted, or it converts to a number that is not negative. *)
Definition fieldAccepted (v : value) : Prop :=
  v = Undefined \/ (isNaN v = false /\ lt v zero = false).

(** The field as updateKarat hands it on. *)
Definition handedOn (v : value) : value :=
  if isUndefined v then Undefined else Num (parseFloat v).

(** The final value of a stored number under an update of its field. *)
Definition resolved (stored : number) (v : value) : number :=
  if isUndefined v then stored else parseFloat v.

(** An update that carries nothing but minimum and maximum. *)
Definition rangeUpdate (lo hi : value) : UpdateData.t :=
  UpdateData.setMaximum (UpdateData.setMinimum UpdateData.empty lo) hi.

(** The write of [replaceOne]: the documents with the id of [d] become [d]. *)
Definition replaced (d : doc) (c : collection) : collection :=
  map (fun o => if hasId (_id d) o then d else o) c.

(** What the model lets into the collection: the schema's validators
    pass and the pre-save hook finds minimum below maximum. *)
Definition persistable (d : doc) : Prop :=
  validate d = [] /\ ge (Num (minimum d)) (Num (maximum d)) = false.


Definition flipped (s : string) : string :=
  if String.eqb s "active" then "inactive" else "active".


Definition toggleData (s : string) : UpdateData.t :=
  UpdateData.setIsActive (UpdateData.setStatus UpdateData.empty (Str s))
                         (Bool (String.eqb s "active")).

Definition idsRequiredError : JsError :=
  createAppError "IDs array is required and cannot be empty" 400 "IDS_REQUIRED".

Definition invalidStatusError : JsError :=
  createAppError "Status must be either 'active' or 'inactive'" 400 "INVALID_STATUS".

(** The record a bulk status update writes for a matching [d]. *)
Definition withStatus (s : string) (adminId : ObjectId) (d : doc) : doc :=
  setUpdatedBy (setIsActive (setStatus d s) (String.eqb s "active")) adminId.

(** An update sets status and isActive together and in agreement, or
    sets neither. *)
Definition consistentStatusFields (u : UpdateData.t) : Prop :=
  (UpdateData.status u = Undefined /\ UpdateData.isActive u = Undefined)
  \/ exists s b,
      UpdateData.status u = Str s
      /\ KaratMasterService.castBoolean (UpdateData.isActive u) = Some b
      /\ (s = "active" <-> b = true).

(** The numbers createKarat hands to the service are in range:
    0 <= standardPurity <= 100 and 0 <= minimum < maximum. *)
Definition inRange (d : KaratData.t) : Prop :=
  SFleb posZero (KaratData.standardPurity d) = true
  /\ SFleb (KaratData.standardPurity d) (ofZ 100) = true
  /\ SFleb posZero (KaratData.minimum d) = true
  /\ SFltb (KaratData.minimum d) (KaratData.maximum d) = true.

(** createKarat from the call of the service on: the handler has made
    its checks and built [data]. *)
Definition callsCreate (svc : Service.t) (c : collection) (newId adminId : ObjectId)
           (data : KaratData.t) : outcome * collection :=
  handle c (
    created <- Service.createKarat svc c newId data adminId ;;
    ret (Json 201 "Karat created successfully" (Karat (fst created)), snd created)).

(** None of the five checks of createKarat fires on the body. *)
Definition noCheckFires (body : CreateBody.t) : Prop :=
  (negb (toBoolean (CreateBody.karatCode body))
   || negb (toBoolean (CreateBody.division body))
   || negb (toBoolean (CreateBody.description body))
   || isUndefined (CreateBody.standardPurity body)
   || isUndefined (CreateBody.minimum body)
   || isUndefined (CreateBody.maximum body))%bool = false
  /\ (isNaN (CreateBody.standardPurity body) || isNaN (CreateBody.minimum body)
      || isNaN (CreateBody.maximum body))%bool = false
  /\ (lt (CreateBody.standardPurity body) zero
      || gt (CreateBody.standardPurity body) hundred)%bool = false
  /\ (lt (CreateBody.minimum body) zero || lt (CreateBody.maximum body) zero)%bool = false
  /\ ge (CreateBody.minimum body) (CreateBody.maximum body) = false.

Definition trimTypeError (callee : string) : JsError :=
  NamedError "TypeError" (callee ++ ".trim is not a function").

(** updateKarat from the call of the service on: the handler has made
    its checks and rewritten the update to [u]. *)
Definition callsUpdate (svc : Service.t) (c : collection) (id adminId : ObjectId)
           (u : UpdateData.t) : outcome * collection :=
  handle c (
    updated <- Service.updateKarat svc c id u adminId ;;
    ret (Json 200 "Karat updated successfully" (Karat (fst updated)), snd updated)).

(** A value that is no number but converts to one: null, a boolean, a
    string of white space only (the empty string among them). *)
Definition blankNumber (v : value) : Prop :=
  v = Null \/ (exists b, v = Bool b) \/ (exists s, v = Str s /\ trim s = "").

(** The service with its updateKarat replaced. *)
Definition withUpdateKarat (svc : Service.t)
           (f : collection -> ObjectId -> UpdateData.t -> ObjectId -> result (doc * collection))
  : Service.t :=
  Service.make (Service.createKarat svc) (Service.getKaratById svc) f
               (Service.bulkPermanentDelete svc) (Service.bulkUpdateStatus svc).

(** The update with its division set. *)
Definition updateWithDivision (u : UpdateData.t) (v : value) : UpdateData.t :=
  UpdateData.make (UpdateData.karatCode u) v (UpdateData.description u)
                  (UpdateData.standardPurity u) (UpdateData.minimum u)
                  (UpdateData.maximum u) (UpdateData.status u) (UpdateData.isActive u).

(** The route carries no id: the parameter is absent or empty. *)
Definition missingId (id : option string) : Prop := id = None \/ id = Some "".

Definition idRequiredError : JsError :=
  createAppError "Karat ID is required" 400 "ID_REQUIRED".

Definition divisionIdRequiredError : JsError :=
  createAppError "Division ID is required" 400 "DIVISION_ID_REQUIRED".

Definition mongooseReferenceError : JsError :=
  NamedError "ReferenceError" "mongoose is not defined".

Definition invalidMinimumError : JsError :=
  createAppError "Minimum must be a valid non-negative number" 400 "INVALID_MINIMUM".

Definition invalidMaximumError : JsError :=
  createAppError "Maximum must be a valid non-negative number" 400 "INVALID_MAXIMUM".

(** A letter of either case, or a digit. *)
Definition isLetterOrDigit (c : ascii) : bool :=
  let n := nat_of_ascii c in
  (((97 <=? n) && (n <=? 122)) || ((65 <=? n) && (n <=? 90))
   || ((48 <=? n) && (n <=? 57)))%nat.

(** The hook's work on the code. *)
Definition upperCased (d : doc) : doc := setKaratCode d (toUpperCase (karatCode d)).

Definition minMaxHookError : JsError :=
  NamedError "ValidationError" "Minimum value must be less than maximum value".

(** The documents other than the one with id [e]. *)
Definition others (e : ObjectId) (c : collection) : collection :=
  filter (fun d => negb (hasId e d)) c.

(** The data model's constraints on a stored record, number by number. *)
Definition wellFormed (d : doc) : Prop :=
  allChars isCodeChar (karatCode d) = true
  /\ (1 <= String.length (karatCode d) <= 10)%nat
  /\ (1 <= String.length (description d) <= 200)%nat
  /\ SFleb posZero (standardPurity d) = true
  /\ SFleb (standardPurity d) (ofZ 100) = true
  /\ SFleb posZero (minimum d) = true
  /\ SFltb (minimum d) (maximum d) = true
  /\ (status d = "active" \/ status d = "inactive").

(* ================================================================== *)
(** ** Facts about the controller's checks *)
(* ================================================================== *)

Lemma zero_is_defined : isUndefined (Num (ofZ 0)) = false.
Proof. reflexivity. Qed.

Lemma empty_string_is_falsy : toBoolean (Str "") = false.
Proof. reflexivity. Qed.

Lemma isUndefined_false : forall v, v <> Undefined -> isUndefined v = false.
Proof. intros [] H; try reflexivity. congruence. Qed.

Lemma isUndefined_true : forall v, isUndefined v = true -> v = Undefined.
Proof. intros [] H; try discriminate. reflexivity. Qed.

(** The failures of the modelled createKarat: the schema's, the hook's,
    the index's, or DuplicateCode. *)
Lemma service_create_failures :
  forall c newId data adminId e,
    KaratMasterService.createKarat c newId data adminId = inl e ->
    e = ServiceFailure DuplicateCode \/ kindOf e = None.
Proof.
  intros c newId data adminId e. unfold KaratMasterService.createKarat.
  destruct (castObjectId (KaratData.division data)) as [div|].
  2:{ intro H; inversion H; right; reflexivity. }
  destruct (isKaratCodeExists c (KaratData.karatCode data) div None).
  { intro H; inversion H; left; reflexivity. }
  unfold save.
  destruct (validate _).
  2:{ intro H; inversion H; right; reflexivity. }
  unfold preSave, bind, throw, ret.
  match goal with |- context [if ge ?a ?b then _ else _] => destruct (ge a b) end.
  { intro H; inversion H; right; reflexivity. }
  unfold insertOne, throw, ret.
  match goal with |- context [if existsb ?f ?l then _ else _] => destruct (existsb f l) end.
  - intro H; inversion H; right; reflexivity.
  - discriminate.
Qed.

Lemma service_create_never_required :
  createNeverReports KaratMasterService.service RequiredFieldsMissing.
Proof.
  intros c newId data adminId e H. simpl in H.
  destruct (service_create_failures _ _ _ _ _ H) as [-> | ->]; discriminate.
Qed.

(** Presence check of createKarat, for any service: the handler stops
    with REQUIRED_FIELDS_MISSING as soon as a field counts as missing. *)
Lemma createKarat_missing :
  forall svc c newId adminId body,
    (toBoolean (CreateBody.karatCode body) = false
     \/ toBoolean (CreateBody.division body) = false
     \/ toBoolean (CreateBody.description body) = false
     \/ CreateBody.standardPurity body = Undefined
     \/ CreateBody.minimum body = Undefined
     \/ CreateBody.maximum body = Undefined) ->
    createKarat svc c newId body adminId = (Next requiredFieldsError, c).
Proof.
  intros svc c newId adminId body H. unfold createKarat.
  assert (E : (negb (toBoolean (CreateBody.karatCode body))
               || negb (toBoolean (CreateBody.division body))
               || negb (toBoolean (CreateBody.description body))
               || isUndefined (CreateBody.standardPurity body)
               || isUndefined (CreateBody.minimum body)
               || isUndefined (CreateBody.maximum body))%bool = true).
  { repeat rewrite orb_true_iff.
    destruct H as [H|[H|[H|[H|[H|H]]]]]; rewrite H; simpl; tauto. }
  rewrite E. reflexivity.
Qed.

(** Once nothing is missing, whatever createKarat answers is not a
    RequiredFieldsMissing failure. *)
Lemma createKarat_present :
  forall svc c newId adminId body,
    createNeverReports svc RequiredFieldsMissing ->
    toBoolean (CreateBody.karatCode body) = true ->
    toBoolean (CreateBody.division body) = true ->
    toBoolean (CreateBody.description body) = true ->
    CreateBody.standardPurity body <> Undefined ->
    CreateBody.minimum body <> Undefined ->
    CreateBody.maximum body <> Undefined ->
    forall e, fst (createKarat svc c newId body adminId) = Next e ->
              kindOf e <> Some RequiredFieldsMissing.
Proof.
  intros svc c newId adminId body Hsvc Hc Hd Hs Hp Hlo Hhi e.
  unfold createKarat. rewrite Hc, Hd, Hs.
  rewrite (isUndefined_false _ Hp), (isUndefined_false _ Hlo), (isUndefined_false _ Hhi).
  cbv beta iota delta [negb orb].
  repeat match goal with
         | |- context [if ?b then throw _ else _] =>
             destruct b;
             [unfold handle, throw, createAppError; simpl;
              intro E; inversion E; subst; discriminate|]
         end.
  destruct (callTrim "karatCode" (CreateBody.karatCode body)) as [e1|code] eqn:Ecode.
  { destruct (CreateBody.karatCode body); simpl in Ecode; inversion Ecode;
      simpl; intro E; inversion E; subst; discriminate. }
  destruct (callTrim "description" (CreateBody.description body)) as [e1|descr] eqn:Edescr.
  { destruct (CreateBody.description body); simpl in Edescr; inversion Edescr;
      simpl; intro E; inversion E; subst; discriminate. }
  unfold bind at 1 2. cbv beta iota.
  match goal with
  | |- context [Service.createKarat svc c newId ?data adminId] =>
      specialize (Hsvc c newId data adminId);
      destruct (Service.createKarat svc c newId data adminId) as [e1|[d c']]
  end.
  - simpl. intro E. inversion E; subst. apply Hsvc. reflexivity.
  - simpl. discriminate.
Qed.

(** C10. In the presence check of createKarat a numeric field supplied
    as 0 counts as present: with the three text fields non-empty and
    every numeric field 0 or any other supplied value, a failure of the
    call is never RequiredFieldsMissing. A text field (karatCode,
    division, description) supplied as the empty string counts as
    missing: the handler answers REQUIRED_FIELDS_MISSING and leaves the
    collection as it was. *)
Theorem createKarat_zero_present_empty_missing :
  forall svc c newId adminId body,
    createNeverReports svc RequiredFieldsMissing ->
    (toBoolean (CreateBody.karatCode body) = true ->
     toBoolean (CreateBody.division body) = true ->
     toBoolean (CreateBody.description body) = true ->
     (CreateBody.standardPurity body = Num (ofZ 0)
      \/ CreateBody.standardPurity body <> Undefined) ->
     (CreateBody.minimum body = Num (ofZ 0) \/ CreateBody.minimum body <> Undefined) ->
     (CreateBody.maximum body = Num (ofZ 0) \/ CreateBody.maximum body <> Undefined) ->
     forall e, fst (createKarat svc c newId body adminId) = Next e ->
               kindOf e <> Some RequiredFieldsMissing)
    /\
    ((CreateBody.karatCode body = Str ""
      \/ CreateBody.division body = Str ""
      \/ CreateBody.description body = Str "") ->
     createKarat svc c newId body adminId = (Next requiredFieldsError, c)
     /\ kindOf requiredFieldsError = Some RequiredFieldsMissing).
Proof.
  intros svc c newId adminId body Hsvc. split.
  - intros Hc Hd Hs Hp Hlo Hhi.
    apply createKarat_present; try assumption.
    + destruct Hp as [-> | H]; [discriminate | exact H].
    + destruct Hlo as [-> | H]; [discriminate | exact H].
    + destruct Hhi as [-> | H]; [discriminate | exact H].
  - intros H. split; [|reflexivity].
    apply createKarat_missing.
    destruct H as [H|[H|H]]; rewrite H; simpl; tauto.
Qed.

Lemma createKarat_zero_present_empty_missing_witness :
  (forall e,
      fst (createKarat KaratMasterService.service [] Sample.id1 Sample.zeroBody Sample.admin)
      = Next e ->
      kindOf e <> Some RequiredFieldsMissing)
  /\ createKarat KaratMasterService.service [] Sample.id1
                 (CreateBody.make (Str "") (Str Sample.divisionA) (Str "Zero")
                                  (Num (ofZ 0)) (Num (ofZ 0)) (Num (ofZ 0)))
                 Sample.admin
     = (Next requiredFieldsError, []).
Proof.
  split.
  - apply (proj1 (createKarat_zero_present_empty_missing
                    KaratMasterService.service [] Sample.id1 Sample.admin Sample.zeroBody
                    service_create_never_required));
      try reflexivity; left; reflexivity.
  - apply (proj2 (createKarat_zero_present_empty_missing
                    KaratMasterService.service [] Sample.id1 Sample.admin
                    (CreateBody.make (Str "") (Str Sample.divisionA) (Str "Zero")
                                     (Num (ofZ 0)) (Num (ofZ 0)) (Num (ofZ 0)))
                    service_create_never_required)).
    left. reflexivity.
Defined.

(** The checks of createKarat in the order the handler makes them, for
    any service: the first one that fires decides the answer, the
    service is not called and the collection is as it was. *)
Lemma createKarat_first_failure :
  forall svc c newId adminId body,
    let karatCode := CreateBody.karatCode body in
    let division := CreateBody.division body in
    let description := CreateBody.description body in
    let standardPurity := CreateBody.standardPurity body in
    let minimum := CreateBody.minimum body in
    let maximum := CreateBody.maximum body in
    let missing :=
      (negb (toBoolean karatCode) || negb (toBoolean division)
       || negb (toBoolean description) || isUndefined standardPurity
       || isUndefined minimum || isUndefined maximum)%bool in
    let notNumeric := (isNaN standardPurity || isNaN minimum || isNaN maximum)%bool in
    let purityOut := (lt standardPurity zero || gt standardPurity hundred)%bool in
    let negative := (lt minimum zero || lt maximum zero)%bool in
    let unordered := ge minimum maximum in
    let answer := createKarat svc c newId body adminId in
    (missing = true -> answer = (Next requiredFieldsError, c))
    /\ (missing = false -> notNumeric = true ->
        answer = (Next (createAppError
                          "Standard purity, minimum, and maximum must be valid numbers"
                          400 "INVALID_NUMERIC_VALUES"), c))
    /\ (missing = false -> notNumeric = false -> purityOut = true ->
        answer = (Next (createAppError "Standard purity must be between 0 and 100"
                                       400 "INVALID_PURITY_RANGE"), c))
    /\ (missing = false -> notNumeric = false -> purityOut = false -> negative = true ->
        answer = (Next (createAppError "Minimum and maximum values cannot be negative"
                                       400 "INVALID_VALUE_RANGE"), c))
    /\ (missing = false -> notNumeric = false -> purityOut = false -> negative = false ->
        unordered = true ->
        answer = (Next minMaxRangeError, c)).
Proof.
  intros svc c newId adminId body. cbv zeta. unfold createKarat.
  repeat split; intros; repeat match goal with H : _ = _ |- _ => rewrite H; clear H end;
    reflexivity.
Qed.

(** What x >= y compares: two strings by their code units, anything
    else by the numbers they convert to. *)
Lemma ge_strings : forall a b, ge (Str a) (Str b) = negb (String.ltb a b).
Proof. intros a b. unfold ge, isLessThan. destruct (String.ltb a b); reflexivity. Qed.

Lemma ge_numbers :
  forall x y,
    ge (Num x) (Num y) = (negb (isNaNNumber x || isNaNNumber y) && negb (SFltb x y))%bool.
Proof.
  intros x y. unfold ge, isLessThan, toNumber, numberLessThan.
  destruct (isNaNNumber x || isNaNNumber y)%bool; [reflexivity|].
  destruct (SFltb x y); reflexivity.
Qed.

Lemma lt_numbers :
  forall x y,
    lt (Num x) (Num y) = (negb (isNaNNumber x || isNaNNumber y) && SFltb x y)%bool.
Proof.
  intros x y. unfold lt, isLessThan, toNumber, numberLessThan.
  destruct (isNaNNumber x || isNaNNumber y)%bool; [reflexivity|].
  destruct (SFltb x y); reflexivity.
Qed.

(** A stored pair the hook lets through is strictly ordered, provided
    neither value is NaN. *)
Lemma not_ge_lt :
  forall x y,
    isNaNNumber x = false -> isNaNNumber y = false ->
    ge (Num x) (Num y) = false -> lt (Num x) (Num y) = true.
Proof.
  intros x y Hx Hy. rewrite ge_numbers, lt_numbers, Hx, Hy. simpl.
  destruct (SFltb x y); [reflexivity | discriminate].
Qed.

(** C5. createKarat compares minimum and maximum before parseFloat, so
    when both arrive as text they are compared as strings: with minimum
    "10" and maximum "9" no check of the handler fires, and the service
    is called with minimum 10 and maximum 9, although 10 >= 9 as
    numbers. What then refuses the record is the model's pre-save hook,
    whose failure is not an InvalidMinMaxRange. *)
Theorem createKarat_text_range_not_rejected :
  (forall svc c newId adminId,
      createKarat svc c newId Sample.textRangeBody adminId
      = handle c (
            created <- Service.createKarat svc c newId
                         (KaratData.make "K22" (Str Sample.divisionA) "22 Karat Gold"
                                         (Sample.num "91.6") (Sample.num "10")
                                         (Sample.num "9"))
                         adminId ;;
            ret (Json 201 "Karat created successfully" (Karat (fst created)),
                 snd created)))
  /\ ge (Num (parseFloat (Str "10"))) (Num (parseFloat (Str "9"))) = true
  /\ ge (Str "10") (Str "9") = false
  /\ createKarat KaratMasterService.service [] Sample.id1 Sample.textRangeBody Sample.admin
     = (Next (NamedError "ValidationError" "Minimum value must be less than maximum value"),
        [])
  /\ kindOf (NamedError "ValidationError" "Minimum value must be less than maximum value")
     <> Some InvalidMinMaxRange.
Proof.
  split; [|split; [|split; [|split]]].
  - intros svc c newId adminId. vm_compute. reflexivity.
  - vm_compute. reflexivity.
  - vm_compute. reflexivity.
  - vm_compute. reflexivity.
  - discriminate.
Qed.

(** The same comparison refuses an ordered pair sent as text: minimum
    "9" and maximum "10" are answered with INVALID_MIN_MAX_RANGE. *)
Lemma createKarat_text_ordered_rejected :
  forall svc c newId adminId,
    createKarat svc c newId Sample.textOrderedBody adminId = (Next minMaxRangeError, c).
Proof. intros. vm_compute. reflexivity. Qed.

(** With the name bound, the filter keeps exactly the malformed ids. *)
Lemma filterInvalid_bound :
  forall isValid ids,
    filterInvalid {| mongoose := Some isValid |} ids
    = ret (filter (fun id => negb (isValid id)) ids).
Proof.
  intros isValid ids. induction ids as [|id rest IH]; [reflexivity|].
  simpl filterInvalid. rewrite IH. simpl. destruct (isValid id); reflexivity.
Qed.

(** In the module as it is written the callback of the filter fails at
    its first call. *)
Lemma filterInvalid_unbound :
  forall id rest,
    filterInvalid moduleScope (id :: rest)
    = throw (NamedError "ReferenceError" "mongoose is not defined").
Proof. reflexivity. Qed.

(** What bulkPermanentDeleteKarats would do in a module that binds
    mongoose: every malformed id is named in one INVALID_ID_FORMAT
    failure and nothing is deleted; with only well-formed ids the
    service is called with all of them. *)
Lemma bulkPermanentDeleteKaratsIn_bound :
  forall svc isValid c id rest,
    let ids := id :: rest in
    let invalid := filter (fun i => negb (isValid i)) ids in
    let answer :=
      bulkPermanentDeleteKaratsIn svc {| mongoose := Some isValid |} c (IdArray ids) in
    (invalid <> [] ->
     answer = (Next (createAppError ("Invalid ID format for: " ++ join ", " invalid)
                                    400 "INVALID_ID_FORMAT"), c))
    /\ (invalid = [] ->
        answer = handle c (
                     deleted <- Service.bulkPermanentDelete svc c ids ;;
                     ret (Json 200
                               (natToString (fst deleted)
                                ++ " karats permanently deleted successfully")
                               (DeleteResult (fst deleted)),
                          snd deleted))).
Proof.
  intros svc isValid c id rest ids invalid answer. subst answer.
  unfold bulkPermanentDeleteKaratsIn.
  change (idsMissing (IdArray ids)) with false. cbv iota.
  change (itemsOf (IdArray ids)) with ids.
  rewrite filterInvalid_bound. fold invalid. unfold ret at 1, bind at 1.
  split; intro H.
  - destruct invalid as [|bad more]; [congruence|]. reflexivity.
  - rewrite H. reflexivity.
Qed.

(** C2. bulkPermanentDeleteKarats uses mongoose.Types.ObjectId.isValid
    in a module that does not import mongoose: for every non-empty
    array of ids, well-formed or not, the first call of the filter's
    callback throws a ReferenceError, which the handler passes to next;
    no INVALID_ID_FORMAT is produced, the service is not called and
    nothing is deleted. *)
Theorem bulkPermanentDeleteKarats_reference_error :
  forall svc c id rest,
    bulkPermanentDeleteKarats svc c (IdArray (id :: rest))
    = (Next (NamedError "ReferenceError" "mongoose is not defined"), c).
Proof. reflexivity. Qed.

(* ================================================================== *)
(** ** Facts about the model *)
(* ================================================================== *)

Section FindFacts.

Variable query : doc -> bool.

Lemma findOne_some_iff :
  forall c, (exists d, findOne query c = Some d) <-> exists d, In d c /\ query d = true.
Proof.
  intros c. unfold findOne. split.
  - intros [d H]. exists d. exact (find_some query c H).
  - intros [d [Hin Hq]]. destruct (find query c) as [d'|] eqn:E.
    + exists d'. reflexivity.
    + rewrite (find_none query c E d Hin) in Hq. discriminate.
Qed.

End FindFacts.

(** *** Order of codes *)

Lemma ascii_compare_lt_trans :
  forall a b c, Ascii.compare a b = Lt -> Ascii.compare b c = Lt -> Ascii.compare a c = Lt.
Proof.
  intros a b c. unfold Ascii.compare. rewrite !N.compare_lt_iff. apply N.lt_trans.
Qed.

Lemma string_compare_le_trans :
  forall a b c,
    String.compare a b <> Gt -> String.compare b c <> Gt -> String.compare a c <> Gt.
Proof.
  induction a as [|x a IH]; intros b c Hab Hbc.
  - destruct c; simpl; discriminate.
  - destruct b as [|y b]; [simpl in Hab; congruence|].
    destruct c as [|z c]; [simpl in Hbc; congruence|].
    simpl in *.
    destruct (Ascii.compare x y) eqn:Exy; try congruence.
    + apply Ascii.compare_eq_iff in Exy. subst y.
      destruct (Ascii.compare x z) eqn:Exz; try congruence.
      eapply IH; eassumption.
    + destruct (Ascii.compare y z) eqn:Eyz; try congruence.
      * apply Ascii.compare_eq_iff in Eyz. subst z. rewrite Exy. discriminate.
      * rewrite (ascii_compare_lt_trans _ _ _ Exy Eyz). discriminate.
Qed.

Lemma string_leb_iff : forall a b, String.leb a b = true <-> String.compare a b <> Gt.
Proof.
  intros a b. unfold String.leb. destruct (String.compare a b); split; congruence.
Qed.

Lemma string_leb_trans :
  forall a b c, String.leb a b = true -> String.leb b c = true -> String.leb a c = true.
Proof.
  intros a b c. rewrite !string_leb_iff. apply string_compare_le_trans.
Qed.

Lemma codeLe_trans : forall a b c, codeLe a b -> codeLe b c -> codeLe a c.
Proof. unfold codeLe. intros a b c. apply string_leb_trans. Qed.

Lemma codeLe_total : forall a b, codeLe a b \/ codeLe b a.
Proof. unfold codeLe. intros a b. apply String.leb_total. Qed.

Lemma insertByCode_perm : forall d l, Permutation (insertByCode d l) (d :: l).
Proof.
  intros d l. induction l as [|x rest IH]; simpl.
  - apply Permutation_refl.
  - destruct (String.leb (karatCode d) (karatCode x)).
    + apply Permutation_refl.
    + apply perm_trans with (x :: d :: rest).
      * apply perm_skip. exact IH.
      * apply perm_swap.
Qed.

Lemma sortByCode_perm : forall l, Permutation (sortByCode l) l.
Proof.
  induction l as [|d l IH]; simpl.
  - apply perm_nil.
  - eapply perm_trans; [apply insertByCode_perm|]. apply perm_skip. exact IH.
Qed.

Lemma insertByCode_hd :
  forall x d l, codeLe x d -> HdRel codeLe x l -> HdRel codeLe x (insertByCode d l).
Proof.
  intros x d l Hxd Hl. destruct l as [|y rest]; simpl.
  - constructor. exact Hxd.
  - destruct (String.leb (karatCode d) (karatCode y)).
    + constructor. exact Hxd.
    + constructor. inversion Hl; assumption.
Qed.

Lemma insertByCode_sorted :
  forall d l, Sorted codeLe l -> Sorted codeLe (insertByCode d l).
Proof.
  intros d l. induction l as [|x rest IH]; intro Hs; simpl.
  - repeat constructor.
  - destruct (String.leb (karatCode d) (karatCode x)) eqn:E.
    + constructor; [exact Hs|]. constructor. exact E.
    + inversion Hs as [|? ? Hrest Hhd]; subst. constructor.
      * apply IH. exact Hrest.
      * apply insertByCode_hd; [|exact Hhd].
        destruct (codeLe_total x d) as [H|H]; [exact H|].
        unfold codeLe in H. congruence.
Qed.

Lemma sortByCode_sorted : forall l, Sorted codeLe (sortByCode l).
Proof.
  induction l as [|d l IH]; simpl.
  - constructor.
  - apply insertByCode_sorted. exact IH.
Qed.

(** C7. getByDivision(division) returns exactly the stored records of
    that division with status "active" and isActive true, each as often
    as it is stored, and in ascending order of karatCode: every record
    of the result is below all that follow it. *)
Theorem getByDivision_exact_sorted :
  forall (c : collection) (divisionId : ObjectId),
    Permutation (getByDivision c divisionId) (filter (activeIn divisionId) c)
    /\ (forall d, In d (getByDivision c divisionId)
                  <-> In d c /\ division d = divisionId
                      /\ status d = "active" /\ isActive d = true)
    /\ StronglySorted codeLe (getByDivision c divisionId).
Proof.
  intros c divisionId.
  assert (P : Permutation (getByDivision c divisionId) (filter (activeIn divisionId) c)).
  { unfold getByDivision. apply sortByCode_perm. }
  split; [exact P|]. split.
  - intros d. split.
    + intro H. apply (Permutation_in _ P) in H. apply filter_In in H.
      destruct H as [Hin Hact]. unfold activeIn in Hact.
      rewrite !andb_true_iff, !String.eqb_eq in Hact.
      destruct Hact as [[H1 H2] H3]. apply Bool.eqb_prop in H3. tauto.
    + intros [Hin [H1 [H2 H3]]]. apply (Permutation_in _ (Permutation_sym P)).
      apply filter_In. split; [exact Hin|]. unfold activeIn.
      rewrite H1, H2, H3, !String.eqb_refl. reflexivity.
  - apply Sorted_StronglySorted.
    + intros x y z. apply codeLe_trans.
    + unfold getByDivision. apply sortByCode_sorted.
Qed.

(* ================================================================== *)
(** ** Facts about trim and toUpperCase *)
(* ================================================================== *)

Lemma upperChar_whitespace : forall c, isWhiteSpace (upperChar c) = isWhiteSpace c.
Proof. intros [[] [] [] [] [] [] [] []]; reflexivity. Qed.

Lemma upperChar_idem : forall c, upperChar (upperChar c) = upperChar c.
Proof. intros [[] [] [] [] [] [] [] []]; reflexivity. Qed.

Lemma upperChar_code_char : forall c, isCodeChar c = true -> upperChar c = c.
Proof. intros [[] [] [] [] [] [] [] []]; intro H; try reflexivity; discriminate H. Qed.

Lemma toUpperCase_idem : forall s, toUpperCase (toUpperCase s) = toUpperCase s.
Proof.
  induction s as [|c s IH]; simpl; [reflexivity|]. rewrite upperChar_idem, IH. reflexivity.
Qed.

Lemma toUpperCase_code_chars :
  forall s, allChars isCodeChar s = true -> toUpperCase s = s.
Proof.
  induction s as [|c s IH]; simpl; [reflexivity|]. intro H.
  apply andb_true_iff in H. destruct H as [Hc Hs].
  rewrite (upperChar_code_char c Hc), (IH Hs). reflexivity.
Qed.

Lemma toUpperCase_trimStart :
  forall s, trimStart (toUpperCase s) = toUpperCase (trimStart s).
Proof.
  induction s as [|c s IH]; simpl; [reflexivity|].
  rewrite upperChar_whitespace. destruct (isWhiteSpace c); [exact IH | reflexivity].
Qed.

Lemma toUpperCase_trimEnd :
  forall s, trimEnd (toUpperCase s) = toUpperCase (trimEnd s).
Proof.
  induction s as [|c s IH]; simpl; [reflexivity|].
  rewrite IH, upperChar_whitespace.
  destruct (trimEnd s); simpl; [destruct (isWhiteSpace c)|]; reflexivity.
Qed.

Lemma toUpperCase_trim : forall s, trim (toUpperCase s) = toUpperCase (trim s).
Proof.
  intros s. unfold trim. rewrite toUpperCase_trimStart, toUpperCase_trimEnd. reflexivity.
Qed.

Lemma trimStart_noLeadingSpace : forall s, noLeadingSpace (trimStart s).
Proof.
  induction s as [|c s IH]; simpl; [exact I|].
  destruct (isWhiteSpace c) eqn:E; [exact IH | exact E].
Qed.

Lemma trimStart_fixed : forall s, noLeadingSpace s -> trimStart s = s.
Proof. intros [|c s] H; simpl in *; [reflexivity|]. rewrite H. reflexivity. Qed.

Lemma trimEnd_noLeadingSpace : forall s, noLeadingSpace s -> noLeadingSpace (trimEnd s).
Proof.
  intros [|c s] H; simpl in *; [exact I|].
  destruct (trimEnd s); [rewrite H|]; exact H.
Qed.

Lemma trimEnd_idem : forall s, trimEnd (trimEnd s) = trimEnd s.
Proof.
  induction s as [|c s IH]; simpl; [reflexivity|].
  destruct (trimEnd s) as [|c' t] eqn:E.
  - destruct (isWhiteSpace c) eqn:Ec; simpl; [reflexivity|]. rewrite Ec. reflexivity.
  - change (trimEnd (String c (String c' t)))
      with (match trimEnd (String c' t) with
            | EmptyString => if isWhiteSpace c then EmptyString else String c EmptyString
            | String a r => String c (String a r)
            end).
    rewrite IH. reflexivity.
Qed.

Lemma trim_idem : forall s, trim (trim s) = trim s.
Proof.
  intros s. unfold trim.
  rewrite (trimStart_fixed (trimEnd (trimStart s))).
  - apply trimEnd_idem.
  - apply trimEnd_noLeadingSpace, trimStart_noLeadingSpace.
Qed.

(** What is stored for a code the controller has trimmed: the setter's
    and the hook's work come to upper-casing the trimmed input. *)
Lemma stored_code :
  forall code,
    toUpperCase (karatCodeSetter (trim code)) = toUpperCase (trim code)
    /\ karatCodeSetter (trim code) = toUpperCase (trim code).
Proof.
  intros code. unfold karatCodeSetter.
  rewrite toUpperCase_trim, trim_idem, toUpperCase_idem. split; reflexivity.
Qed.

Lemma filter_code : forall code, karatCodeSetter (toUpperCase code) = trim (toUpperCase code).
Proof. intros code. unfold karatCodeSetter. rewrite toUpperCase_idem. reflexivity. Qed.

Lemma code_char_not_space : forall c, isCodeChar c = true -> isWhiteSpace c = false.
Proof. intros [[] [] [] [] [] [] [] []]; intro H; try reflexivity; discriminate H. Qed.

Lemma trimStart_code_chars : forall s, allChars isCodeChar s = true -> trimStart s = s.
Proof.
  intros [|c s] H; simpl in *; [reflexivity|].
  apply andb_true_iff in H. rewrite (code_char_not_space c (proj1 H)). reflexivity.
Qed.

Lemma trimEnd_code_chars : forall s, allChars isCodeChar s = true -> trimEnd s = s.
Proof.
  induction s as [|c s IH]; simpl; intro H; [reflexivity|].
  apply andb_true_iff in H. destruct H as [Hc Hs].
  rewrite (IH Hs), (code_char_not_space c Hc). destruct s; reflexivity.
Qed.

(** A code of A-Z and 0-9 is looked up as it is. *)
Lemma filter_code_chars :
  forall s, allChars isCodeChar s = true -> karatCodeSetter (toUpperCase s) = s.
Proof.
  intros s H. rewrite filter_code, (toUpperCase_code_chars s H).
  unfold trim. rewrite (trimStart_code_chars s H). apply trimEnd_code_chars. exact H.
Qed.

(** C6, amended. isKaratCodeExists(code, division, excludeId) is true exactly
    when some stored record whose id differs from excludeId (any record
    when excludeId is null) has the given division and a karatCode
    equal to the code upper-cased and trimmed: the lookup value goes
    through the schema's setters, so white space around the code is
    not part of what is compared. An excludeId that is supplied is an
    identifier, hence not the empty string. *)
Theorem isKaratCodeExists_iff :
  forall (c : collection) (code : string) (divisionId : ObjectId)
         (excludeId : option ObjectId),
    excludeId <> Some "" ->
    (isKaratCodeExists c code divisionId excludeId = true
     <-> exists d, In d c
                   /\ (forall e, excludeId = Some e -> _id d <> e)
                   /\ karatCode d = trim (toUpperCase code)
                   /\ division d = divisionId).
Proof.
  intros c code divisionId excludeId Hex. unfold isKaratCodeExists.
  rewrite filter_code.
  match goal with |- context [findOne ?q c] => set (query := q) end.
  assert (Hq : forall d, query d = true
                         <-> (forall e, excludeId = Some e -> _id d <> e)
                             /\ karatCode d = trim (toUpperCase code)
                             /\ division d = divisionId).
  { intros d. unfold query. rewrite !andb_true_iff, !String.eqb_eq.
    destruct excludeId as [e|].
    - assert (He : toBoolean (Str e) = true).
      { destruct e as [|a e']; [exfalso; apply Hex; reflexivity | reflexivity]. }
      rewrite He. unfold hasId. rewrite negb_true_iff, String.eqb_neq.
      split.
      + intros [[H1 H2] H3]. repeat split; try assumption.
        intros e0 E. inversion E; subst. exact H3.
      + intros [H1 [H2 H3]]. repeat split; try assumption. apply H1. reflexivity.
    - split.
      + intros [[H1 H2] _]. repeat split; try assumption. intros e E. discriminate.
      + intros [_ [H2 H3]]. repeat split; assumption. }
  split.
  - intro H. destruct (findOne query c) as [d|] eqn:E; [|discriminate].
    destruct (proj1 (findOne_some_iff query c) (ex_intro _ d E)) as [d' [Hin Hd']].
    exists d'. split; [exact Hin|]. apply Hq. exact Hd'.
  - intros [d [Hin Hd]].
    destruct (proj2 (findOne_some_iff query c)) as [d' E].
    { exists d. split; [exact Hin|]. apply Hq. exact Hd. }
    rewrite E. reflexivity.
Qed.

Lemma isKaratCodeExists_iff_witness :
  isKaratCodeExists [Sample.k18; Sample.k22] " k22 " Sample.divisionA (Some Sample.id1) = true
  <-> exists d, In d [Sample.k18; Sample.k22]
                /\ (forall e, Some Sample.id1 = Some e -> _id d <> e)
                /\ karatCode d = trim (toUpperCase " k22 ")
                /\ division d = Sample.divisionA.
Proof.
  apply (isKaratCodeExists_iff [Sample.k18; Sample.k22] " k22 " Sample.divisionA
                               (Some Sample.id1)).
  discriminate.
Defined.

(** C6, as stated, fails for a code with white space around it: K18
    is found under " k18 ", which upper-cased is " K18 " and the
    karatCode of no stored record. *)
Lemma isKaratCodeExists_finds_untrimmed_code :
  isKaratCodeExists [Sample.k18] " k18 " Sample.divisionA None = true
  /\ ~ (exists d, In d [Sample.k18]
                  /\ (forall e, @None ObjectId = Some e -> _id d <> e)
                  /\ karatCode d = toUpperCase " k18 "
                  /\ division d = Sample.divisionA).
Proof.
  split; [vm_compute; reflexivity|].
  intros [d [[<- | []] [_ [H _]]]]. vm_compute in H. discriminate H.
Qed.

(* ================================================================== *)
(** ** Facts about saving *)
(* ================================================================== *)

Lemma failure_nil : forall path r, failure path r = [] -> r = None.
Proof. intros path [m|] H; [discriminate | reflexivity]. Qed.

Lemma validate_nil :
  forall d,
    validate d = [] ->
    validateKaratCode (karatCode d) = None
    /\ validateDescription (description d) = None
    /\ validateStandardPurity (standardPurity d) = None
    /\ validateMinimum (minimum d) = None
    /\ validateMaximum (maximum d) = None
    /\ validateStatus (status d) = None.
Proof.
  intros d H. unfold validate in H.
  repeat match type of H with
         | (_ ++ _)%list = [] => apply app_eq_nil in H; destruct H as [?H H]
         end.
  repeat match goal with
         | H : failure _ _ = [] |- _ => apply failure_nil in H
         end.
  repeat split; assumption.
Qed.

Lemma validate_intro :
  forall d,
    validateKaratCode (karatCode d) = None ->
    validateDescription (description d) = None ->
    validateStandardPurity (standardPurity d) = None ->
    validateMinimum (minimum d) = None ->
    validateMaximum (maximum d) = None ->
    validateStatus (status d) = None ->
    validate d = [].
Proof.
  intros d H1 H2 H3 H4 H5 H6. unfold validate.
  rewrite H1, H2, H3, H4, H5, H6. reflexivity.
Qed.

Lemma validateKaratCode_none :
  forall v,
    validateKaratCode v = None ->
    allChars isCodeChar v = true /\ (1 <= String.length v <= 10)%nat.
Proof.
  intros v. unfold validateKaratCode, matchesCodePattern.
  destruct (String.eqb v "") eqn:E; [discriminate|].
  destruct (10 <? String.length v)%nat eqn:L; [discriminate|].
  simpl. destruct (allChars isCodeChar v); [|discriminate].
  intros _. split; [reflexivity|].
  apply Nat.ltb_ge in L. split; [|exact L].
  destruct v; [discriminate E | simpl; lia].
Qed.

Lemma validateMinimum_none : forall v, validateMinimum v = None -> isNaNNumber v = false.
Proof.
  intros v. unfold validateMinimum. destruct (isNaNNumber v); [discriminate | reflexivity].
Qed.

Lemma validateMaximum_none : forall v, validateMaximum v = None -> isNaNNumber v = false.
Proof.
  intros v. unfold validateMaximum. destruct (isNaNNumber v); [discriminate | reflexivity].
Qed.

(** What a successful save of a new document gives. *)
Lemma save_new_inv :
  forall d c saved c',
    save None d c = inr (saved, c') ->
    validate d = []
    /\ ge (Num (minimum d)) (Num (maximum d)) = false
    /\ saved = (if negb (String.eqb (karatCode d) "")
                then setKaratCode d (toUpperCase (karatCode d)) else d)
    /\ c' = (c ++ [saved])%list.
Proof.
  intros d c saved c'. unfold save.
  destruct (validate d) eqn:V; [|discriminate].
  unfold preSave.
  set (this := if negb (String.eqb (karatCode d) "")
               then setKaratCode d (toUpperCase (karatCode d)) else d).
  assert (Hmin : minimum this = minimum d) by (subst this; destruct (negb _); reflexivity).
  assert (Hmax : maximum this = maximum d) by (subst this; destruct (negb _); reflexivity).
  rewrite Hmin, Hmax.
  destruct (ge (Num (minimum d)) (Num (maximum d))); [discriminate|].
  unfold bind, ret, insertOne, throw.
  destruct (existsb (sameKey this) c); [discriminate|].
  intro H. inversion H; subst. repeat split; reflexivity.
Qed.

(** C4. When createKarat answers with a created record, that record is
    in the collection, its code is the upper-cased, trimmed input code,
    made of 1 to 10 characters of A-Z and 0-9, and its minimum is
    strictly below its maximum. *)
Theorem createKarat_stored_code_and_range :
  forall c newId adminId body statusCode message d,
    fst (createKarat KaratMasterService.service c newId body adminId)
    = Json statusCode message (Karat d) ->
    exists code,
      CreateBody.karatCode body = Str code
      /\ karatCode d = toUpperCase (trim code)
      /\ allChars isCodeChar (karatCode d) = true
      /\ (1 <= String.length (karatCode d) <= 10)%nat
      /\ lt (Num (minimum d)) (Num (maximum d)) = true
      /\ In d (snd (createKarat KaratMasterService.service c newId body adminId)).
Proof.
  intros c newId adminId body statusCode message d.
  destruct (createKarat KaratMasterService.service c newId body adminId)
    as [answer after] eqn:E.
  cbn [fst snd]. intro Hanswer. subst answer.
  unfold createKarat in E.
  repeat match type of E with
         | context [if ?b then throw _ else _] =>
             destruct b; [discriminate E|]
         end.
  destruct (CreateBody.karatCode body) as [| |b|x|code]; try discriminate E.
  destruct (CreateBody.description body) as [| |b|x|descr]; try discriminate E.
  unfold callTrim, ret, bind at 1 2 in E. cbv beta iota in E.
  change (Service.createKarat KaratMasterService.service)
    with KaratMasterService.createKarat in E.
  unfold KaratMasterService.createKarat in E.
  cbn [KaratData.karatCode KaratData.description KaratData.standardPurity
       KaratData.minimum KaratData.maximum KaratData.division] in E.
  destruct (castObjectId (CreateBody.division body)) as [div|]; [|discriminate E].
  destruct (isKaratCodeExists c (trim code) div None); [discriminate E|].
  match type of E with
  | context [save None ?doc c] =>
      destruct (save None doc c) as [e|[saved c']] eqn:S; [discriminate E|]
  end.
  cbn in E. inversion E; subst d after. clear E.
  apply save_new_inv in S. destruct S as [V [G [Hsaved Hc']]].
  apply validate_nil in V. destruct V as [Vcode [_ [_ [Vmin [Vmax _]]]]].
  cbn [construct karatCode minimum maximum] in Vcode, Vmin, Vmax, G, Hsaved.
  destruct (stored_code code) as [Hhook Hsetter].
  apply validateKaratCode_none in Vcode. rewrite Hsetter in Vcode.
  assert (Hd : karatCode saved = toUpperCase (trim code)
               /\ minimum saved = parseFloat (CreateBody.minimum body)
               /\ maximum saved = parseFloat (CreateBody.maximum body)).
  { rewrite Hsaved. destruct (negb _); cbn; [rewrite Hhook | rewrite Hsetter];
      repeat split; reflexivity. }
  destruct Hd as [Hk [Hlo Hhi]].
  exists code.
  split; [reflexivity|]. split; [exact Hk|].
  rewrite Hk, Hlo, Hhi. destruct Vcode as [Vchars Vlen].
  split; [exact Vchars|]. split; [exact Vlen|].
  split.
  - apply not_ge_lt; [apply validateMinimum_none | apply validateMaximum_none | ]; assumption.
  - rewrite Hc'. apply in_or_app. right. left. reflexivity.
Qed.

Lemma createKarat_stored_code_and_range_witness :
  exists code,
    CreateBody.karatCode Sample.k18Body = Str code
    /\ karatCode Sample.k18 = toUpperCase (trim code)
    /\ allChars isCodeChar (karatCode Sample.k18) = true
    /\ (1 <= String.length (karatCode Sample.k18) <= 10)%nat
    /\ lt (Num (minimum Sample.k18)) (Num (maximum Sample.k18)) = true
    /\ In Sample.k18
          (snd (createKarat KaratMasterService.service [] Sample.id1 Sample.k18Body
                            Sample.admin)).
Proof.
  apply (createKarat_stored_code_and_range
           [] Sample.id1 Sample.admin Sample.k18Body 201 "Karat created successfully"
           Sample.k18).
  vm_compute. reflexivity.
Defined.

(* ================================================================== *)
(** ** Facts about updates *)
(* ================================================================== *)

Lemma requireId_some : forall id, id <> "" -> requireId (Some id) = ret id.
Proof. intros [|a id] H; [congruence | reflexivity]. Qed.

Lemma fieldAccepted_cases :
  forall v,
    fieldAccepted v ->
    v = Undefined \/ (isUndefined v = false /\ isNaN v = false /\ lt v zero = false).
Proof.
  intros v [H | [Hn Hl]]; [left; exact H | right].
  repeat split; try assumption. destruct v; try reflexivity. discriminate Hn.
Qed.

Ltac update_step :=
  cbn [UpdateData.standardPurity UpdateData.minimum UpdateData.maximum
       UpdateData.karatCode UpdateData.description UpdateData.division
       UpdateData.status UpdateData.isActive
       UpdateData.setMinimum UpdateData.setMaximum UpdateData.setStandardPurity
       UpdateData.setKaratCode UpdateData.setDescription UpdateData.setStatus
       UpdateData.setIsActive UpdateData.empty
       isUndefined toBoolean negb orb ret bind].

Lemma normalizeUpdate_range :
  forall lo hi,
    fieldAccepted lo -> fieldAccepted hi ->
    normalizeUpdate (rangeUpdate lo hi) = ret (rangeUpdate (handedOn lo) (handedOn hi)).
Proof.
  intros lo hi Hlo Hhi.
  apply fieldAccepted_cases in Hlo. apply fieldAccepted_cases in Hhi.
  unfold normalizeUpdate, rangeUpdate, handedOn.
  destruct Hlo as [-> | [Hu [Hn Hl]]]; destruct Hhi as [-> | [Hu' [Hn' Hl']]];
    repeat (progress (update_step;
                      rewrite ?Hu, ?Hn, ?Hl, ?Hu', ?Hn', ?Hl'));
    reflexivity.
Qed.

Lemma merge_range :
  forall cur lo hi,
    exists merged,
      KaratMasterService.merge cur (rangeUpdate (handedOn lo) (handedOn hi)) = ret merged
      /\ minimum merged = resolved (minimum cur) lo
      /\ maximum merged = resolved (maximum cur) hi.
Proof.
  intros cur lo hi. unfold handedOn, resolved.
  destruct (isUndefined lo); destruct (isUndefined hi);
    eexists; (split; [reflexivity|]); split; reflexivity.
Qed.

(** An update of minimum and maximum alone is refused when the
    resolved pair is not strictly ordered, whichever of the two fields
    it supplies. *)
Lemma updateKarat_range_resolved :
  forall c id cur adminId lo hi,
    id <> "" ->
    findById id c = Some cur ->
    fieldAccepted lo -> fieldAccepted hi ->
    ge (Num (resolved (minimum cur) lo)) (Num (resolved (maximum cur) hi)) = true ->
    updateKarat KaratMasterService.service c (Some id) (rangeUpdate lo hi) adminId
    = (Next (ServiceFailure InvalidMinMaxRange), c).
Proof.
  intros c id cur adminId lo hi Hid Hfind Hlo Hhi Hge.
  unfold updateKarat. rewrite (requireId_some id Hid).
  rewrite (normalizeUpdate_range lo hi Hlo Hhi).
  unfold ret at 1 2, bind at 1 2.
  change (Service.updateKarat KaratMasterService.service)
    with KaratMasterService.updateKarat.
  unfold KaratMasterService.updateKarat, KaratMasterService.getKaratById.
  rewrite Hfind. unfold ret at 1, bind at 2.
  destruct (merge_range cur lo hi) as [merged [Hm [Hmin Hmax]]].
  rewrite Hm. unfold ret at 1, bind at 2. rewrite Hmin, Hmax, Hge. reflexivity.
Qed.

(** C1, amended. An update supplying only minimum, as a value that
    passes the controller's check of the field (a number, not
    negative), fails with InvalidMinMaxRange and leaves the collection
    as it was when the new minimum is >= the stored maximum; an update
    supplying only maximum, as such a value, fails likewise when the
    stored minimum is >= the new maximum; in general the comparison is
    made on the resolved pair, the stored value where the field is
    omitted and the new one where it is supplied. *)
Theorem updateKarat_range_checked_on_final_pair :
  forall c id cur adminId,
    id <> "" ->
    findById id c = Some cur ->
    (forall v,
        v <> Undefined -> isNaN v = false -> lt v zero = false ->
        ge (Num (parseFloat v)) (Num (maximum cur)) = true ->
        updateKarat KaratMasterService.service c (Some id)
                    (UpdateData.setMinimum UpdateData.empty v) adminId
        = (Next (ServiceFailure InvalidMinMaxRange), c))
    /\ (forall v,
           v <> Undefined -> isNaN v = false -> lt v zero = false ->
           ge (Num (minimum cur)) (Num (parseFloat v)) = true ->
           updateKarat KaratMasterService.service c (Some id)
                       (UpdateData.setMaximum UpdateData.empty v) adminId
           = (Next (ServiceFailure InvalidMinMaxRange), c))
    /\ (forall lo hi,
           fieldAccepted lo -> fieldAccepted hi ->
           ge (Num (resolved (minimum cur) lo)) (Num (resolved (maximum cur) hi)) = true ->
           updateKarat KaratMasterService.service c (Some id) (rangeUpdate lo hi) adminId
           = (Next (ServiceFailure InvalidMinMaxRange), c))
    /\ kindOf (ServiceFailure InvalidMinMaxRange) = Some InvalidMinMaxRange.
Proof.
  intros c id cur adminId Hid Hfind.
  split; [|split; [|split; [|reflexivity]]].
  - intros v Hv Hn Hl Hge.
    apply (updateKarat_range_resolved c id cur adminId v Undefined Hid Hfind).
    + right. split; assumption.
    + left. reflexivity.
    + unfold resolved. rewrite (isUndefined_false v Hv). exact Hge.
  - intros v Hv Hn Hl Hge.
    apply (updateKarat_range_resolved c id cur adminId Undefined v Hid Hfind).
    + left. reflexivity.
    + right. split; assumption.
    + unfold resolved. rewrite (isUndefined_false v Hv). exact Hge.
  - intros lo hi Hlo Hhi Hge.
    apply (updateKarat_range_resolved c id cur adminId lo hi Hid Hfind Hlo Hhi Hge).
Qed.

Lemma updateKarat_range_checked_on_final_pair_witness :
  updateKarat KaratMasterService.service [Sample.k18] (Some Sample.id1)
              (UpdateData.setMinimum UpdateData.empty (Str "80")) Sample.admin
  = (Next (ServiceFailure InvalidMinMaxRange), [Sample.k18])
  /\ updateKarat KaratMasterService.service [Sample.k18] (Some Sample.id1)
                 (UpdateData.setMaximum UpdateData.empty (Num (Sample.num "74")))
                 Sample.admin
     = (Next (ServiceFailure InvalidMinMaxRange), [Sample.k18]).
Proof.
  destruct (updateKarat_range_checked_on_final_pair
              [Sample.k18] Sample.id1 Sample.k18 Sample.admin)
    as [Hmin [Hmax _]].
  - discriminate.
  - reflexivity.
  - split.
    + apply Hmin; [discriminate | vm_compute; reflexivity
                   | vm_compute; reflexivity | vm_compute; reflexivity].
    + apply Hmax; [discriminate | vm_compute; reflexivity
                   | vm_compute; reflexivity | vm_compute; reflexivity].
Defined.



Lemma setKaratCode_same : forall d, setKaratCode d (karatCode d) = d.
Proof. intros []. reflexivity. Qed.

(** The hook leaves a document that passes the schema as it is. *)
Lemma preSave_valid :
  forall d,
    validate d = [] ->
    ge (Num (minimum d)) (Num (maximum d)) = false ->
    preSave d = ret d.
Proof.
  intros d V G. unfold preSave.
  apply validate_nil in V. destruct V as [Vcode _].
  apply validateKaratCode_none in Vcode. destruct Vcode as [Vchars _].
  rewrite (toUpperCase_code_chars _ Vchars), setKaratCode_same.
  destruct (negb _); rewrite G; reflexivity.
Qed.


(** What a successful save gives in either case: the saved document
    has the status and the flag of the one given, and the collection
    gains it or has it in the place of the documents with its id. *)
Lemma save_inv :
  forall old d c saved c',
    save old d c = inr (saved, c') ->
    status saved = status d
    /\ isActive saved = isActive d
    /\ (c' = (c ++ [saved])%list \/ c' = replaced saved c).
Proof.
  intros old d c saved c'. unfold save.
  destruct (validate d); [|discriminate].
  unfold preSave.
  set (this := if negb (String.eqb (karatCode d) "")
               then setKaratCode d (toUpperCase (karatCode d)) else d).
  assert (Hs : status this = status d) by (subst this; destruct (negb _); reflexivity).
  assert (Ha : isActive this = isActive d) by (subst this; destruct (negb _); reflexivity).
  destruct (ge (Num (minimum this)) (Num (maximum this))); [discriminate|].
  unfold ret at 1, bind at 1.
  destruct old as [o|].
  - unfold replaceOne.
    destruct (negb (sameKey o this) && _)%bool; [discriminate|].
    intro H. inversion H; subst. repeat split; try assumption. right. reflexivity.
  - unfold insertOne. destruct (existsb (sameKey this) c); [discriminate|].
    intro H. inversion H; subst. repeat split; try assumption. left. reflexivity.
Qed.

(* ================================================================== *)
(** ** Toggle *)
(* ================================================================== *)




Lemma sameKey_refl : forall d, sameKey d d = true.
Proof. intros d. unfold sameKey. rewrite !String.eqb_refl. reflexivity. Qed.






(* ================================================================== *)
(** ** Bulk status update *)
(* ================================================================== *)

Lemma oneOf_withStatus :
  forall ids s adminId d,
    KaratMasterService.oneOf ids (withStatus s adminId d) = KaratMasterService.oneOf ids d.
Proof. reflexivity. Qed.

(** C9. bulkUpdateKaratStatus: ids that are not an array, or an empty
    array, give IDS_REQUIRED; otherwise a status other than "active" and
    "inactive" gives INVALID_STATUS; in both cases the collection is as
    it was. Otherwise every record whose id is among the ids gets the
    status, the active flag that goes with it and updatedBy, the others
    stay as they were, and the answer carries matchedCount (the records
    found) and modifiedCount (those of them whose status or flag was
    another one) as two counts. *)
Theorem bulkUpdateKaratStatus_checks_and_counts :
  forall c ids st adminId,
    let answer := bulkUpdateKaratStatus KaratMasterService.service c ids st adminId in
    (((exists v, ids = NotArray v) \/ ids = IdArray []) ->
     answer = (Next idsRequiredError, c)
     /\ kindOf idsRequiredError = Some IdsRequired)
    /\ (forall items,
           ids = IdArray items -> items <> [] ->
           st <> Str "active" -> st <> Str "inactive" ->
           answer = (Next invalidStatusError, c)
           /\ kindOf invalidStatusError = Some InvalidStatus)
    /\ (forall items s,
           ids = IdArray items -> items <> [] ->
           st = Str s -> s = "active" \/ s = "inactive" ->
           let matched := filter (KaratMasterService.oneOf items) c in
           let modified := filter (fun d => negb (KaratMasterService.hasStatus s d)) matched in
           answer
           = (Json 200
                   (natToString (List.length modified) ++ " karats updated successfully")
                   (StatusCounts (List.length matched) (List.length modified)),
              map (fun d => if KaratMasterService.oneOf items d
                            then withStatus s adminId d else d) c)
           /\ (forall d, In d (snd answer) -> KaratMasterService.oneOf items d = true ->
                         status d = s
                         /\ isActive d = String.eqb s "active"
                         /\ updatedBy d = Some adminId)
           /\ (forall d, In d c -> KaratMasterService.oneOf items d = false ->
                         In d (snd answer))
           /\ (List.length modified <= List.length matched <= List.length c)%nat).
Proof.
  intros c ids st adminId answer. subst answer. split; [|split].
  - intros [[v ->] | ->]; split; reflexivity.
  - intros items -> Hne H1 H2. split; [|reflexivity].
    unfold bulkUpdateKaratStatus.
    destruct items as [|i rest]; [congruence|]. cbn [idsMissing List.length Nat.eqb].
    assert (E : isStatusName st = false).
    { destruct st as [| |b|x|s]; try reflexivity. cbn.
      destruct (String.eqb_spec s "active") as [->|_]; [congruence|].
      destruct (String.eqb_spec s "inactive") as [->|_]; [congruence|]. reflexivity. }
    rewrite E, orb_true_r. reflexivity.
  - intros items s -> Hne -> Hs matched modified.
    assert (E : bulkUpdateKaratStatus KaratMasterService.service c (IdArray items)
                                      (Str s) adminId
                = (Json 200
                        (natToString (List.length modified)
                         ++ " karats updated successfully")
                        (StatusCounts (List.length matched) (List.length modified)),
                   map (fun d => if KaratMasterService.oneOf items d
                                 then withStatus s adminId d else d) c)).
    { unfold bulkUpdateKaratStatus.
      destruct items as [|i rest]; [congruence|]. cbn [idsMissing List.length Nat.eqb].
      assert (E : (negb (toBoolean (Str s)) || negb (isStatusName (Str s)))%bool = false).
      { destruct Hs as [-> | ->]; reflexivity. }
      rewrite E. reflexivity. }
    rewrite E. cbn [snd]. split; [reflexivity|]. split; [|split].
    + intros d Hin Hone. apply in_map_iff in Hin. destruct Hin as [d0 [Hd Hin]].
      destruct (KaratMasterService.oneOf items d0) eqn:E0.
      * subst d. repeat split; reflexivity.
      * subst d. congruence.
    + intros d Hin Hone. apply in_map_iff. exists d. rewrite Hone. split; [reflexivity|].
      exact Hin.
    + split; [apply filter_length_le | apply filter_length_le].
Qed.

Lemma bulkUpdateKaratStatus_checks_and_counts_witness :
  bulkUpdateKaratStatus KaratMasterService.service [Sample.k18; Sample.k22; Sample.k14]
                        (IdArray [Sample.id2; Sample.id1; "65000000000000000000000f"])
                        (Str "inactive") Sample.admin
  = (Json 200 "1 karats updated successfully" (StatusCounts 2 1),
     [withStatus "inactive" Sample.admin Sample.k18;
      withStatus "inactive" Sample.admin Sample.k22;
      Sample.k14]).
Proof.
  destruct (bulkUpdateKaratStatus_checks_and_counts
              [Sample.k18; Sample.k22; Sample.k14]
              (IdArray [Sample.id2; Sample.id1; "65000000000000000000000f"])
              (Str "inactive") Sample.admin) as [_ [_ H]].
  destruct (H [Sample.id2; Sample.id1; "65000000000000000000000f"] "inactive"
              eq_refl ltac:(discriminate) eq_refl (or_intror eq_refl)) as [E _].
  rewrite E. vm_compute. reflexivity.
Defined.

(* ================================================================== *)
(** ** Handler bodies, step by step *)
(* ================================================================== *)

Lemma consistent_toggleData : forall s, consistentStatusFields (toggleData s).
Proof.
  intros s. right. exists s, (String.eqb s "active"). repeat split.
  - intros ->. reflexivity.
  - intro H. apply String.eqb_eq. exact H.
Qed.

Lemma bind_inr :
  forall (A B : Type) (m : result A) (k : A -> result B) (b : B),
    bind m k = inr b -> exists a, m = inr a /\ k a = inr b.
Proof.
  intros A B [e|a] k b H; [discriminate H|]. exists a. split; [reflexivity | exact H].
Qed.

Lemma snd_handle :
  forall (P : collection -> Prop) c r,
    P c ->
    (forall answer c', r = inr (answer, c') -> P c') ->
    P (snd (handle c r)).
Proof.
  intros P c [e|[answer c']] Hc Hr; cbn; [exact Hc|]. apply (Hr answer c'). reflexivity.
Qed.

(** Takes a handler body [H : ... = inr _] one step further: a check
    that did not fire, or a call that returned. *)
Ltac handler_step H :=
  match type of H with
  | (if ?b then throw _ else _) = inr _ => destruct b; [discriminate H|]
  | bind _ _ = inr _ =>
      let a := fresh "a" in
      let Ha := fresh "Ha" in
      apply bind_inr in H; destruct H as [a [Ha H]]
  end.

(* ================================================================== *)
(** ** Where the claim about update stops short *)
(* ================================================================== *)

(** C1, as stated, fails for a negative maximum: the stored minimum of
    K18, 74.5, is >= -5, yet updateKarat answers with the field's own
    failure INVALID_MAXIMUM, whatever the service, because the
    controller checks each supplied field before the update reaches the
    comparison of the pair. *)
Lemma updateKarat_negative_maximum_fails_field_check :
  (forall svc,
      updateKarat svc [Sample.k18] (Some Sample.id1)
                  (UpdateData.setMaximum UpdateData.empty (Num (Sample.num "-5")))
                  Sample.admin
      = (Next (createAppError "Maximum must be a valid non-negative number"
                              400 "INVALID_MAXIMUM"),
         [Sample.k18]))
  /\ findById Sample.id1 [Sample.k18] = Some Sample.k18
  /\ ge (Num (minimum Sample.k18)) (Num (parseFloat (Num (Sample.num "-5")))) = true
  /\ kindOf (createAppError "Maximum must be a valid non-negative number"
                            400 "INVALID_MAXIMUM")
     = Some InvalidMaximum.
Proof.
  split; [|split; [|split]].
  - intros svc. vm_compute. reflexivity.
  - reflexivity.
  - vm_compute. reflexivity.
  - reflexivity.
Qed.

(* ================================================================== *)
(** ** Supporting facts *)
(* ================================================================== *)

(** A numeric field sent as the empty string converts to 0 under isNaN
    and the comparisons, so no check of createKarat fires, and
    parseFloat then hands NaN to the service. *)
Lemma createKarat_blank_number_reaches_service :
  forall svc c newId adminId,
    createKarat svc c newId
                (CreateBody.make (Str "K22") (Str Sample.divisionA) (Str "22 Karat Gold")
                                 (Str "") (Num (ofZ 1)) (Num (ofZ 2)))
                adminId
    = handle c (
          created <- Service.createKarat svc c newId
                       (KaratData.make "K22" (Str Sample.divisionA) "22 Karat Gold"
                                       NaN (ofZ 1) (ofZ 2))
                       adminId ;;
          ret (Json 201 "Karat created successfully" (Karat (fst created)),
               snd created)).
Proof. intros. vm_compute. reflexivity. Qed.

(** With the name mongoose bound and every id well-formed, the modelled
    service removes the matching records and the answer carries their
    number, which is below the number of ids when some match nothing. *)
Lemma bulkPermanentDeleteKaratsIn_bound_deletes :
  forall isValid c id rest,
    let ids := id :: rest in
    filter (fun i => negb (isValid i)) ids = [] ->
    bulkPermanentDeleteKaratsIn KaratMasterService.service
                                {| mongoose := Some isValid |} c (IdArray ids)
    = (Json 200
            (natToString (List.length (filter (KaratMasterService.oneOf ids) c))
             ++ " karats permanently deleted successfully")
            (DeleteResult (List.length (filter (KaratMasterService.oneOf ids) c))),
       filter (fun d => negb (KaratMasterService.oneOf ids d)) c).
Proof.
  intros isValid c id rest ids H.
  destruct (bulkPermanentDeleteKaratsIn_bound KaratMasterService.service isValid c id rest)
    as [_ E].
  fold ids in E. rewrite (E H). reflexivity.
Qed.

Lemma save_persistable :
  forall old d c saved c',
    save old d c = inr (saved, c') ->
    persistable saved /\ (c' = (c ++ [saved])%list \/ c' = replaced saved c).
Proof.
  intros old d c saved c' S.
  pose proof (save_inv _ _ _ _ _ S) as [_ [_ Hc']].
  unfold save in S. destruct (validate d) eqn:V; [|discriminate S].
  destruct (ge (Num (minimum d)) (Num (maximum d))) eqn:G.
  - unfold preSave in S.
    assert (E : forall this : doc,
               minimum this = minimum d -> maximum this = maximum d ->
               ge (Num (minimum this)) (Num (maximum this)) = true).
    { intros this -> ->. exact G. }
    rewrite E in S; [discriminate S | |]; destruct (negb _); reflexivity.
  - rewrite (preSave_valid d V G) in S. cbn [bind ret] in S.
    assert (Hd : saved = d).
    { destruct old as [o|].
      - unfold replaceOne in S. destruct (negb _ && _)%bool; [discriminate S|].
        inversion S. reflexivity.
      - unfold insertOne in S. destruct (existsb _ _); [discriminate S|].
        inversion S. reflexivity. }
    subst saved. split; [split; assumption | exact Hc'].
Qed.

Lemma persistable_withStatus :
  forall s adminId d,
    s = "active" \/ s = "inactive" ->
    persistable d -> persistable (withStatus s adminId d).
Proof.
  intros s adminId d Hs [V G]. split; [|exact G].
  apply validate_nil in V. destruct V as [V1 [V2 [V3 [V4 [V5 _]]]]].
  apply validate_intro; try assumption.
  cbn. unfold validateStatus. destruct Hs as [-> | ->]; reflexivity.
Qed.

Lemma Forall_replaced :
  forall (P : doc -> Prop) d c, P d -> Forall P c -> Forall P (replaced d c).
Proof.
  intros P d c Hd Hc. unfold replaced. apply Forall_forall.
  intros x Hin. apply in_map_iff in Hin. destruct Hin as [o [Hx Hin]].
  destruct (hasId (_id d) o); subst x; [exact Hd|].
  exact (proj1 (Forall_forall P c) Hc o Hin).
Qed.

(** Every record of the collection stays one the model accepts, under
    each of the four operations that write: what toggle and update
    assume of the stored record holds of every record they can meet. *)
Lemma persistable_invariant :
  forall c,
    Forall persistable c ->
    (forall newId body adminId,
        Forall persistable
               (snd (createKarat KaratMasterService.service c newId body adminId)))
    /\ (forall id u adminId,
           Forall persistable
                  (snd (updateKarat KaratMasterService.service c id u adminId)))
    /\ (forall id adminId,
           Forall persistable
                  (snd (toggleKaratStatus KaratMasterService.service c id adminId)))
    /\ (forall ids st adminId,
           Forall persistable
                  (snd (bulkUpdateKaratStatus KaratMasterService.service c ids st
                                              adminId))).
Proof.
  intros c Hc.
  assert (Hsave : forall old d saved c',
             save old d c = inr (saved, c') -> Forall persistable c').
  { intros old d saved c' S. apply save_persistable in S.
    destruct S as [Hp [-> | ->]].
    - apply Forall_app. split; [exact Hc|]. constructor; [exact Hp | constructor].
    - apply Forall_replaced; assumption. }
  assert (Hupdate : forall id u adminId saved c',
             KaratMasterService.updateKarat c id u adminId = inr (saved, c') ->
             Forall persistable c').
  { intros id u adminId saved c'.
    unfold KaratMasterService.updateKarat, KaratMasterService.getKaratById.
    destruct (findById id c) as [cur|]; [|discriminate]. cbn [bind ret].
    destruct (KaratMasterService.merge cur u) as [e|merged]; [discriminate|].
    cbn [bind].
    destruct (ge (Num (minimum merged)) (Num (maximum merged))); [discriminate|].
    destruct (negb (sameKey cur merged) && _)%bool; [discriminate|].
    apply Hsave. }
  split; [|split; [|split]].
  - intros newId body adminId. unfold createKarat.
    apply snd_handle; [exact Hc|]. intros answer c' H.
    repeat handler_step H.
    destruct a1 as [saved after]. inversion H; subst.
    change (Service.createKarat KaratMasterService.service)
      with KaratMasterService.createKarat in Ha1.
    unfold KaratMasterService.createKarat in Ha1.
    destruct (castObjectId _) as [div|]; [|discriminate Ha1].
    destruct (isKaratCodeExists _ _ _ _); [discriminate Ha1|].
    apply (Hsave _ _ _ _ Ha1).
  - intros id u adminId. unfold updateKarat.
    apply snd_handle; [exact Hc|]. intros answer c' H.
    repeat handler_step H.
    destruct a1 as [saved after]. inversion H; subst.
    apply (Hupdate _ _ _ _ _ Ha1).
  - intros id adminId. unfold toggleKaratStatus.
    apply snd_handle; [exact Hc|]. intros answer c' H.
    repeat handler_step H.
    destruct a1 as [saved after]. inversion H; subst.
    apply (Hupdate _ _ _ _ _ Ha1).
  - intros ids st adminId. unfold bulkUpdateKaratStatus.
    apply snd_handle; [exact Hc|]. intros answer c' H.
    handler_step H.
    destruct (negb (toBoolean st) || negb (isStatusName st))%bool eqn:Est;
      [discriminate H|].
    apply orb_false_iff in Est. destruct Est as [_ Est].
    apply negb_false_iff in Est.
    handler_step H.
    destruct a as [[matchedCount modifiedCount] after].
    cbn in Ha. inversion Ha; subst. inversion H; subst.
    apply Forall_forall. intros d Hin.
    apply in_map_iff in Hin. destruct Hin as [d0 [Hd Hin]].
    pose proof (proj1 (Forall_forall persistable c) Hc d0 Hin) as Hd0.
    destruct (KaratMasterService.oneOf (itemsOf ids) d0); subst d; [|exact Hd0].
    apply (persistable_withStatus (stringOf st) adminId d0); [|exact Hd0].
    destruct st as [| |b|x|s]; try discriminate Est. cbn in Est |- *.
    apply orb_true_iff in Est. rewrite !String.eqb_eq in Est. exact Est.
Qed.

(** The controller's check of a supplied minimum or maximum comes
    first, for any service: a value that is not a number or is negative
    is answered with the field's own failure and the collection is as
    it was. *)
Lemma updateKarat_field_check_first :
  forall svc c id adminId v,
    id <> "" ->
    v <> Undefined ->
    isNaN v = true \/ lt v zero = true ->
    updateKarat svc c (Some id) (UpdateData.setMinimum UpdateData.empty v) adminId
    = (Next (createAppError "Minimum must be a valid non-negative number"
                            400 "INVALID_MINIMUM"), c)
    /\ updateKarat svc c (Some id) (UpdateData.setMaximum UpdateData.empty v) adminId
       = (Next (createAppError "Maximum must be a valid non-negative number"
                               400 "INVALID_MAXIMUM"), c).
Proof.
  intros svc c id adminId v Hid Hv Hbad.
  assert (E : (isNaN v || lt v zero)%bool = true).
  { apply orb_true_iff. exact Hbad. }
  unfold updateKarat. rewrite (requireId_some id Hid).
  unfold normalizeUpdate.
  split; update_step; rewrite (isUndefined_false v Hv); update_step; rewrite E;
    reflexivity.
Qed.

(* ================================================================== *)
(** ** Order of numbers *)
(* ================================================================== *)

Lemma SFcompare_antisym :
  forall x y, SFcompare y x = option_map CompOpp (SFcompare x y).
Proof.
  intros [sx|sx| |sx mx ex] [sy|sy| |sy my ey]; simpl;
    try reflexivity; try (destruct sx; reflexivity); try (destruct sy; reflexivity);
    try (destruct sx, sy; reflexivity).
  pose proof (Pos.compare_cont_antisym mx my Eq) as A. simpl in A.
  destruct sx, sy; simpl; try reflexivity.
  - rewrite (Z.compare_antisym ex ey).
    destruct (ex ?= ey); simpl; try reflexivity. rewrite <- A.
    destruct (Pos.compare_cont Eq mx my); reflexivity.
  - rewrite (Z.compare_antisym ex ey).
    destruct (ex ?= ey); simpl; try reflexivity. rewrite <- A. reflexivity.
Qed.

Lemma SFcompare_defined :
  forall x y,
    isNaNNumber x = false -> isNaNNumber y = false -> exists r, SFcompare x y = Some r.
Proof.
  intros [sx|sx| |sx mx ex] [sy|sy| |sy my ey] Hx Hy; try discriminate;
    simpl; eexists; reflexivity.
Qed.

(** Of two numbers, neither NaN, one is below the other or they are
    equal: not x < y gives y <= x. *)
Lemma not_ltb_leb :
  forall x y,
    isNaNNumber x = false -> isNaNNumber y = false ->
    SFltb x y = false -> SFleb y x = true.
Proof.
  intros x y Hx Hy. unfold SFltb, SFleb. rewrite (SFcompare_antisym x y).
  destruct (SFcompare_defined x y Hx Hy) as [r ->]. simpl.
  destruct r; simpl; congruence.
Qed.

Lemma leb_not_nan :
  forall x y, SFleb x y = true -> isNaNNumber x = false /\ isNaNNumber y = false.
Proof.
  intros [sx|sx| |sx mx ex] [sy|sy| |sy my ey] H; try discriminate H;
    split; reflexivity.
Qed.

Lemma ltb_not_nan :
  forall x y, SFltb x y = true -> isNaNNumber x = false /\ isNaNNumber y = false.
Proof.
  intros [sx|sx| |sx mx ex] [sy|sy| |sy my ey] H; try discriminate H;
    split; reflexivity.
Qed.

(** parseFloat of a number changes at most the sign of a zero, which
    no comparison sees. *)
Lemma SFcompare_parseFloat :
  forall x y, SFcompare (parseFloat (Num x)) (parseFloat (Num y)) = SFcompare x y.
Proof.
  intros [sx|sx| |sx mx ex] [sy|sy| |sy my ey]; reflexivity.
Qed.

Lemma SFcompare_parseFloat_l :
  forall x y, SFcompare (parseFloat (Num x)) y = SFcompare x y.
Proof.
  intros [sx|sx| |sx mx ex] [sy|sy| |sy my ey]; reflexivity.
Qed.

Lemma SFcompare_parseFloat_r :
  forall x y, SFcompare x (parseFloat (Num y)) = SFcompare x y.
Proof.
  intros [sx|sx| |sx mx ex] [sy|sy| |sy my ey]; reflexivity.
Qed.

Lemma parseFloat_number_nan :
  forall x, isNaNNumber (parseFloat (Num x)) = isNaNNumber x.
Proof. intros [sx|sx| |sx mx ex]; reflexivity. Qed.

(** x >= y on two numbers is y <= x. *)
Lemma ge_numbers_leb : forall x y, ge (Num x) (Num y) = SFleb y x.
Proof.
  intros x y. rewrite ge_numbers.
  destruct (isNaNNumber x) eqn:Hx.
  - destruct x; try discriminate Hx. destruct y; reflexivity.
  - destruct (isNaNNumber y) eqn:Hy.
    + destruct y; try discriminate Hy. destruct x; reflexivity.
    + simpl. unfold SFltb, SFleb. rewrite (SFcompare_antisym x y).
      destruct (SFcompare_defined x y Hx Hy) as [r ->]. destruct r; reflexivity.
Qed.

(** A number the controller's checks let through is at least 0. *)
Lemma accepted_not_negative :
  forall x,
    isNaN (Num x) = false -> lt (Num x) zero = false ->
    SFleb posZero (parseFloat (Num x)) = true.
Proof.
  intros x Hn Hl. unfold zero in Hl. rewrite lt_numbers in Hl.
  unfold isNaN, toNumber in Hn. rewrite Hn in Hl. simpl in Hl.
  unfold SFleb. rewrite SFcompare_parseFloat_r.
  change (SFleb (ofZ 0) x = true).
  apply not_ltb_leb; [exact Hn | reflexivity | exact Hl].
Qed.

(** A number the purity check lets through is at most 100. *)
Lemma accepted_at_most_hundred :
  forall x,
    isNaN (Num x) = false -> gt (Num x) hundred = false ->
    SFleb (parseFloat (Num x)) (ofZ 100) = true.
Proof.
  intros x Hn Hg. unfold hundred, gt in Hg. fold (lt (Num (ofZ 100)) (Num x)) in Hg.
  rewrite lt_numbers in Hg. unfold isNaN, toNumber in Hn. rewrite Hn in Hg.
  rewrite orb_false_r in Hg.
  change (isNaNNumber (ofZ 100)) with false in Hg. simpl in Hg.
  unfold SFleb. rewrite SFcompare_parseFloat_l.
  change (SFleb x (ofZ 100) = true).
  apply not_ltb_leb; [reflexivity | exact Hn | exact Hg].
Qed.

(** A pair of numbers the range check lets through is strictly ordered. *)
Lemma accepted_ordered :
  forall x y,
    isNaN (Num x) = false -> isNaN (Num y) = false ->
    ge (Num x) (Num y) = false ->
    SFltb (parseFloat (Num x)) (parseFloat (Num y)) = true.
Proof.
  intros x y Hx Hy Hge. unfold isNaN, toNumber in Hx, Hy.
  pose proof (not_ge_lt x y Hx Hy Hge) as Hlt.
  rewrite lt_numbers, Hx, Hy in Hlt. simpl in Hlt.
  unfold SFltb. rewrite SFcompare_parseFloat. exact Hlt.
Qed.

(* ================================================================== *)
(** ** createKarat: what reaches the service *)
(* ================================================================== *)

Lemma createKarat_checks_passed :
  forall svc c newId adminId body,
    noCheckFires body ->
    createKarat svc c newId body adminId
    = handle c (
          code <- callTrim "karatCode" (CreateBody.karatCode body) ;;
          descr <- callTrim "description" (CreateBody.description body) ;;
          created <- Service.createKarat svc c newId
                       (KaratData.make code (CreateBody.division body) descr
                                       (parseFloat (CreateBody.standardPurity body))
                                       (parseFloat (CreateBody.minimum body))
                                       (parseFloat (CreateBody.maximum body)))
                       adminId ;;
          ret (Json 201 "Karat created successfully" (Karat (fst created)),
               snd created)).
Proof.
  intros svc c newId adminId body [E1 [E2 [E3 [E4 E5]]]].
  unfold createKarat. rewrite E1, E2, E3, E4, E5. reflexivity.
Qed.

(** X1. When the three numeric fields of a create request are JSON
    numbers, either the handler answers with a failure of its own,
    the same whatever the service and with the collection as it was,
    or it calls the service with numbers in range: standardPurity
    between 0 and 100, minimum at least 0 and strictly below maximum,
    none of them NaN. *)
Theorem createKarat_numbers_reach_service_in_range :
  forall c newId adminId code div descr x y z,
    let body := CreateBody.make code div descr (Num x) (Num y) (Num z) in
    (exists e, forall svc, createKarat svc c newId body adminId = (Next e, c))
    \/ (exists data,
           inRange data
           /\ forall svc,
               createKarat svc c newId body adminId = callsCreate svc c newId adminId data).
Proof.
  intros c newId adminId code div descr x y z body.
  pose proof (fun svc => createKarat_first_failure svc c newId adminId body) as F.
  cbv zeta in F.
  destruct (negb (toBoolean (CreateBody.karatCode body))
            || negb (toBoolean (CreateBody.division body))
            || negb (toBoolean (CreateBody.description body))
            || isUndefined (CreateBody.standardPurity body)
            || isUndefined (CreateBody.minimum body)
            || isUndefined (CreateBody.maximum body))%bool eqn:E1.
  { left. eexists. intros svc. apply (proj1 (F svc)). reflexivity. }
  destruct (isNaN (CreateBody.standardPurity body) || isNaN (CreateBody.minimum body)
            || isNaN (CreateBody.maximum body))%bool eqn:E2.
  { left. eexists. intros svc. apply (proj1 (proj2 (F svc))); reflexivity. }
  destruct (lt (CreateBody.standardPurity body) zero
            || gt (CreateBody.standardPurity body) hundred)%bool eqn:E3.
  { left. eexists. intros svc. apply (proj1 (proj2 (proj2 (F svc)))); reflexivity. }
  destruct (lt (CreateBody.minimum body) zero
            || lt (CreateBody.maximum body) zero)%bool eqn:E4.
  { left. eexists. intros svc.
    apply (proj1 (proj2 (proj2 (proj2 (F svc))))); reflexivity. }
  destruct (ge (CreateBody.minimum body) (CreateBody.maximum body)) eqn:E5.
  { left. eexists. intros svc.
    apply (proj2 (proj2 (proj2 (proj2 (F svc))))); reflexivity. }
  assert (P : noCheckFires body) by (repeat split; assumption).
  destruct code as [| |b|n|s];
    try (left; eexists; intros svc;
         rewrite (createKarat_checks_passed svc c newId adminId body P); reflexivity).
  destruct descr as [| |b|n|s'];
    try (left; eexists; intros svc;
         rewrite (createKarat_checks_passed svc c newId adminId body P); reflexivity).
  right.
  exists (KaratData.make (trim s) div (trim s')
                         (parseFloat (Num x)) (parseFloat (Num y)) (parseFloat (Num z))).
  split.
  - cbn [body CreateBody.standardPurity CreateBody.minimum CreateBody.maximum]
      in E2, E3, E4, E5.
    apply orb_false_iff in E2. destruct E2 as [E2 Nz].
    apply orb_false_iff in E2. destruct E2 as [Nx Ny].
    apply orb_false_iff in E3. destruct E3 as [Lx Gx].
    apply orb_false_iff in E4. destruct E4 as [Ly Lz].
    unfold inRange.
    cbn [KaratData.standardPurity KaratData.minimum KaratData.maximum].
    split; [apply accepted_not_negative; assumption|].
    split; [apply accepted_at_most_hundred; assumption|].
    split; [apply accepted_not_negative; assumption|].
    apply accepted_ordered; assumption.
  - intros svc. rewrite (createKarat_checks_passed svc c newId adminId body P).
    reflexivity.
Qed.

(** X2. A karatCode or description that is truthy but not a string (a
    number, true) gets past every check of createKarat and then fails
    at .trim() with a TypeError that names the callee: karatCode.trim
    when the code is no string, description.trim when the code is a
    string and the description is not. The error goes to next as it
    is: it carries no error code of the application, the service is
    not called and the collection is as it was. *)
Theorem createKarat_non_string_text_type_error :
  forall svc c newId adminId body,
    noCheckFires body ->
    ((forall s, CreateBody.karatCode body <> Str s) ->
     createKarat svc c newId body adminId = (Next (trimTypeError "karatCode"), c))
    /\ ((exists s, CreateBody.karatCode body = Str s) ->
        (forall s, CreateBody.description body <> Str s) ->
        createKarat svc c newId body adminId = (Next (trimTypeError "description"), c))
    /\ (forall callee, kindOf (trimTypeError callee) = None).
Proof.
  intros svc c newId adminId body P.
  rewrite (createKarat_checks_passed svc c newId adminId body P).
  destruct P as [P _].
  repeat (apply orb_false_iff in P; destruct P as [P ?]).
  split; [|split].
  - intros Hno.
    destruct (CreateBody.karatCode body) as [| |b|n|s]; try discriminate; try reflexivity.
    destruct (Hno s). reflexivity.
  - intros [s Hs] Hno. rewrite Hs.
    destruct (CreateBody.description body) as [| |b|n|s'];
      try discriminate; try reflexivity.
    destruct (Hno s'). reflexivity.
  - intros callee. reflexivity.
Qed.

Lemma createKarat_non_string_text_type_error_witness :
  createKarat KaratMasterService.service [] Sample.id1
              (CreateBody.make (Num (ofZ 18)) (Str Sample.divisionA) (Str "18 Karat Gold")
                               (Num (ofZ 75)) (Num (ofZ 74)) (Num (ofZ 76)))
              Sample.admin
  = (Next (NamedError "TypeError" "karatCode.trim is not a function"), [])
  /\ createKarat KaratMasterService.service [] Sample.id1
                 (CreateBody.make (Str "k18") (Str Sample.divisionA) (Bool true)
                                  (Num (ofZ 75)) (Num (ofZ 74)) (Num (ofZ 76)))
                 Sample.admin
     = (Next (NamedError "TypeError" "description.trim is not a function"), []).
Proof.
  split.
  - apply (createKarat_non_string_text_type_error
             KaratMasterService.service [] Sample.id1 Sample.admin
             (CreateBody.make (Num (ofZ 18)) (Str Sample.divisionA) (Str "18 Karat Gold")
                              (Num (ofZ 75)) (Num (ofZ 74)) (Num (ofZ 76)))).
    + repeat split; vm_compute; reflexivity.
    + intros s. discriminate.
  - apply (createKarat_non_string_text_type_error
             KaratMasterService.service [] Sample.id1 Sample.admin
             (CreateBody.make (Str "k18") (Str Sample.divisionA) (Bool true)
                              (Num (ofZ 75)) (Num (ofZ 74)) (Num (ofZ 76)))).
    + repeat split; vm_compute; reflexivity.
    + exists "k18". reflexivity.
    + intros s. discriminate.
Defined.

(* ================================================================== *)
(** ** updateKarat: what reaches the service *)
(* ================================================================== *)

Lemma trim_empty_trimStart : forall s, trim s = "" -> trimStart s = "".
Proof.
  intros s H. unfold trim in H.
  pose proof (trimStart_noLeadingSpace s) as N.
  destruct (trimStart s) as [|a t]; [reflexivity|].
  simpl in N, H. destruct (trimEnd t); [rewrite N in H|]; discriminate H.
Qed.

Lemma blankNumber_passes :
  forall v,
    blankNumber v ->
    isUndefined v = false /\ isNaN v = false /\ lt v zero = false
    /\ gt v hundred = false /\ parseFloat v = NaN.
Proof.
  intros v [-> | [[b ->] | [s [-> Hs]]]].
  - repeat split; reflexivity.
  - destruct b; repeat split; reflexivity.
  - assert (Hn : stringToNumber s = posZero) by (unfold stringToNumber; rewrite Hs; reflexivity).
    repeat split.
    + unfold isNaN, toNumber. rewrite Hn. reflexivity.
    + unfold lt, isLessThan, zero, toNumber. rewrite Hn. reflexivity.
    + unfold gt, isLessThan, hundred, toNumber. rewrite Hn. reflexivity.
    + unfold parseFloat, parseFloatString. rewrite (trim_empty_trimStart s Hs). reflexivity.
Qed.

(** X3. null, a boolean or a string of white space sent as
    standardPurity, minimum or maximum of an update passes the
    controller's check of the field, because isNaN and the comparisons
    convert it to 0 or 1, and is handed to the service as NaN, because
    parseFloat reads no number in it. *)
Theorem updateKarat_blank_number_becomes_nan :
  forall svc c id adminId v,
    id <> "" ->
    blankNumber v ->
    updateKarat svc c (Some id) (UpdateData.setStandardPurity UpdateData.empty v) adminId
    = callsUpdate svc c id adminId
                  (UpdateData.setStandardPurity UpdateData.empty (Num NaN))
    /\ updateKarat svc c (Some id) (UpdateData.setMinimum UpdateData.empty v) adminId
       = callsUpdate svc c id adminId (UpdateData.setMinimum UpdateData.empty (Num NaN))
    /\ updateKarat svc c (Some id) (UpdateData.setMaximum UpdateData.empty v) adminId
       = callsUpdate svc c id adminId (UpdateData.setMaximum UpdateData.empty (Num NaN)).
Proof.
  intros svc c id adminId v Hid Hv.
  destruct (blankNumber_passes v Hv) as [Hu [Hn [Hl [Hg Hp]]]].
  unfold updateKarat, callsUpdate. rewrite (requireId_some id Hid).
  unfold normalizeUpdate.
  repeat split;
    repeat (progress (update_step; rewrite ?Hu, ?Hn, ?Hl, ?Hg, ?Hp));
    reflexivity.
Qed.

Lemma updateKarat_blank_number_becomes_nan_witness :
  updateKarat KaratMasterService.service [Sample.k18] (Some Sample.id1)
              (UpdateData.setMinimum UpdateData.empty (Str "  ")) Sample.admin
  = callsUpdate KaratMasterService.service [Sample.k18] Sample.id1 Sample.admin
                (UpdateData.setMinimum UpdateData.empty (Num NaN)).
Proof.
  apply (updateKarat_blank_number_becomes_nan
           KaratMasterService.service [Sample.k18] Sample.id1 Sample.admin (Str "  ")).
  - discriminate.
  - right. right. exists "  ". split; reflexivity.
Defined.

(** Walks through the checks of the rewriting of an update on both
    sides of an equation. *)
Ltac normalize_cases :=
  repeat (update_step; try reflexivity;
          match goal with
          | |- context [if ?b then _ else _] => destruct b
          | |- context [callTrim ?n ?x] => destruct (callTrim n x)
          end);
  try reflexivity.

Lemma normalizeUpdate_setStatus :
  forall u v,
    normalizeUpdate (UpdateData.setStatus u v)
    = (u' <- normalizeUpdate u ;; ret (UpdateData.setStatus u' v)).
Proof.
  intros [code div descr purity lo hi st act] v.
  unfold normalizeUpdate. normalize_cases.
Qed.

Lemma normalizeUpdate_setIsActive :
  forall u v,
    normalizeUpdate (UpdateData.setIsActive u v)
    = (u' <- normalizeUpdate u ;; ret (UpdateData.setIsActive u' v)).
Proof.
  intros [code div descr purity lo hi st act] v.
  unfold normalizeUpdate. normalize_cases.
Qed.

Lemma normalizeUpdate_withDivision :
  forall u v,
    normalizeUpdate (updateWithDivision u v)
    = (u' <- normalizeUpdate u ;; ret (updateWithDivision u' v)).
Proof.
  intros [code div descr purity lo hi st act] v.
  unfold normalizeUpdate, updateWithDivision. normalize_cases.
Qed.

Lemma updateKarat_set_commutes :
  forall (set : UpdateData.t -> UpdateData.t),
    (forall u, normalizeUpdate (set u) = (u' <- normalizeUpdate u ;; ret (set u'))) ->
    forall svc c id u adminId,
      updateKarat svc c id (set u) adminId
      = updateKarat
          (withUpdateKarat svc (fun c' i u' a => Service.updateKarat svc c' i (set u') a))
          c id u adminId.
Proof.
  intros set H svc c id u adminId. unfold updateKarat. rewrite H.
  destruct (requireId id) as [e|i]; [reflexivity|]. cbn [bind].
  destruct (normalizeUpdate u) as [e|u']; reflexivity.
Qed.

(** X4. updateKarat neither reads nor rewrites the status, isActive and
    division of an update: setting one of them on the body before the
    handler runs comes to the same as setting it on what the handler
    hands to the service, whatever the value, so these three fields
    reach the service unchecked. *)
Theorem updateKarat_hands_status_fields_on_unchecked :
  forall svc c id u adminId v,
    updateKarat svc c id (UpdateData.setStatus u v) adminId
    = updateKarat
        (withUpdateKarat svc (fun c' i u' a =>
                                Service.updateKarat svc c' i (UpdateData.setStatus u' v) a))
        c id u adminId
    /\ updateKarat svc c id (UpdateData.setIsActive u v) adminId
       = updateKarat
           (withUpdateKarat svc (fun c' i u' a =>
                                   Service.updateKarat svc c' i
                                                       (UpdateData.setIsActive u' v) a))
           c id u adminId
    /\ updateKarat svc c id (updateWithDivision u v) adminId
       = updateKarat
           (withUpdateKarat svc (fun c' i u' a =>
                                   Service.updateKarat svc c' i (updateWithDivision u' v) a))
           c id u adminId.
Proof.
  intros svc c id u adminId v. split; [|split].
  - apply (updateKarat_set_commutes (fun w => UpdateData.setStatus w v)).
    intros w. apply normalizeUpdate_setStatus.
  - apply (updateKarat_set_commutes (fun w => UpdateData.setIsActive w v)).
    intros w. apply normalizeUpdate_setIsActive.
  - apply (updateKarat_set_commutes (fun w => updateWithDivision w v)).
    intros w. apply normalizeUpdate_withDivision.
Qed.

Lemma leb_zero_accepted :
  forall x, SFleb posZero x = true -> fieldAccepted (Num x).
Proof.
  intros x H. right. destruct (leb_not_nan _ _ H) as [_ Hx].
  split; [exact Hx|].
  unfold zero. rewrite lt_numbers, Hx. simpl.
  unfold SFltb. unfold SFleb in H. fold posZero.
  rewrite (SFcompare_antisym posZero x).
  destruct (SFcompare posZero x) as [[]|]; simpl; congruence.
Qed.

Lemma not_leb_zero_refused :
  forall x, SFleb posZero x = false -> (isNaN (Num x) || lt (Num x) zero)%bool = true.
Proof.
  intros x H. unfold isNaN, toNumber.
  destruct (isNaNNumber x) eqn:Hx; [reflexivity|].
  unfold zero. rewrite lt_numbers, Hx.
  destruct (SFltb x (ofZ 0)) eqn:L; [reflexivity|].
  change (ofZ 0) with posZero in L.
  rewrite (not_ltb_leb x posZero Hx eq_refl L) in H. discriminate H.
Qed.

(** X5. For an update that carries minimum and maximum as JSON
    numbers, the controller checks each of the two against 0 and never
    one against the other: a minimum that is NaN or below 0 is answered
    INVALID_MINIMUM, else a maximum that is NaN or below 0 is answered
    INVALID_MAXIMUM, and every pair of numbers that are both at least 0
    is handed to the service, whatever their order. *)
Theorem updateKarat_bounds_checked_one_by_one :
  forall svc c id adminId lo hi,
    id <> "" ->
    let answer := updateKarat svc c (Some id) (rangeUpdate (Num lo) (Num hi)) adminId in
    (SFleb posZero lo = false -> answer = (Next invalidMinimumError, c))
    /\ (SFleb posZero lo = true -> SFleb posZero hi = false ->
        answer = (Next invalidMaximumError, c))
    /\ (SFleb posZero lo = true -> SFleb posZero hi = true ->
        answer = callsUpdate svc c id adminId
                             (rangeUpdate (Num (parseFloat (Num lo)))
                                          (Num (parseFloat (Num hi))))).
Proof.
  intros svc c id adminId lo hi Hid answer. subst answer.
  unfold updateKarat, callsUpdate. rewrite (requireId_some id Hid).
  split; [|split].
  - intros Hlo. apply not_leb_zero_refused in Hlo.
    unfold normalizeUpdate, rangeUpdate. update_step. rewrite Hlo. reflexivity.
  - intros Hlo Hhi. apply leb_zero_accepted in Hlo. apply not_leb_zero_refused in Hhi.
    destruct Hlo as [Hlo | [Hn Hl]]; [discriminate Hlo|].
    unfold normalizeUpdate, rangeUpdate. update_step. rewrite Hn, Hl.
    update_step. rewrite Hhi. reflexivity.
  - intros Hlo Hhi.
    rewrite (normalizeUpdate_range (Num lo) (Num hi)
               (leb_zero_accepted lo Hlo) (leb_zero_accepted hi Hhi)).
    reflexivity.
Qed.

Lemma updateKarat_bounds_checked_one_by_one_witness :
  updateKarat KaratMasterService.service [Sample.k18] (Some Sample.id1)
              (rangeUpdate (Num (ofZ 10)) (Num (ofZ 5))) Sample.admin
  = callsUpdate KaratMasterService.service [Sample.k18] Sample.id1 Sample.admin
                (rangeUpdate (Num (parseFloat (Num (ofZ 10))))
                             (Num (parseFloat (Num (ofZ 5))))).
Proof.
  apply (updateKarat_bounds_checked_one_by_one
           KaratMasterService.service [Sample.k18] Sample.id1 Sample.admin
           (ofZ 10) (ofZ 5)).
  - discriminate.
  - vm_compute. reflexivity.
  - vm_compute. reflexivity.
Defined.

(* ================================================================== *)
(** ** Handlers without their id *)
(* ================================================================== *)

Lemma requireId_missing :
  forall id, missingId id -> requireId id = throw idRequiredError.
Proof. intros id [-> | ->]; reflexivity. Qed.

(** X6. Every handler that takes an id from the route answers
    ID_REQUIRED when the parameter is absent or empty (and
    getKaratsByDivision answers DIVISION_ID_REQUIRED), whatever the
    body and whatever the service, which it does not call; the
    collection is as it was. *)
Theorem handlers_require_id :
  forall svc serviceDelete servicePermanentDelete serviceByDivision c id u adminId,
    missingId id ->
    updateKarat svc c id u adminId = (Next idRequiredError, c)
    /\ toggleKaratStatus svc c id adminId = (Next idRequiredError, c)
    /\ KaratMasterControllerMore.getKarat svc c id = (Next idRequiredError, c)
    /\ KaratMasterControllerMore.deleteKarat serviceDelete c id adminId
       = (Next idRequiredError, c)
    /\ KaratMasterControllerMore.permanentDeleteKarat servicePermanentDelete c id
       = (Next idRequiredError, c)
    /\ KaratMasterControllerMore.getKaratsByDivision serviceByDivision c id
       = KaratMasterControllerMore.NextList divisionIdRequiredError.
Proof.
  intros svc serviceDelete servicePermanentDelete serviceByDivision c id u adminId H.
  unfold updateKarat, toggleKaratStatus, KaratMasterControllerMore.getKarat,
    KaratMasterControllerMore.deleteKarat, KaratMasterControllerMore.permanentDeleteKarat,
    KaratMasterControllerMore.getKaratsByDivision.
  rewrite (requireId_missing id H).
  repeat split; try reflexivity.
  destruct H as [-> | ->]; reflexivity.
Qed.

Lemma handlers_require_id_witness :
  updateKarat KaratMasterService.service [Sample.k18] (Some "")
              (UpdateData.setStatus UpdateData.empty (Str "inactive")) Sample.admin
  = (Next idRequiredError, [Sample.k18])
  /\ toggleKaratStatus KaratMasterService.service [Sample.k18] (Some "") Sample.admin
     = (Next idRequiredError, [Sample.k18]).
Proof.
  destruct (handlers_require_id
              KaratMasterService.service
              (fun _ _ _ => throw (ServiceFailure NotFound))
              (fun _ _ => throw (ServiceFailure NotFound))
              (fun _ _ => ret [])
              [Sample.k18] (Some "")
              (UpdateData.setStatus UpdateData.empty (Str "inactive")) Sample.admin)
    as [H1 [H2 _]].
  - right. reflexivity.
  - split; assumption.
Defined.

(* ================================================================== *)
(** ** Bulk delete and toggle, for any service *)
(* ================================================================== *)

(** X7. bulkPermanentDeleteKarats never deletes: for every request and
    every service the collection is as it was, and the answer is
    IDS_REQUIRED when ids is not an array or is empty, and the
    ReferenceError of the unbound name mongoose otherwise. *)
Theorem bulkPermanentDeleteKarats_never_deletes :
  forall svc c ids,
    snd (bulkPermanentDeleteKarats svc c ids) = c
    /\ (idsMissing ids = true ->
        fst (bulkPermanentDeleteKarats svc c ids) = Next idsRequiredError)
    /\ (idsMissing ids = false ->
        fst (bulkPermanentDeleteKarats svc c ids) = Next mongooseReferenceError).
Proof.
  intros svc c [v|[|i rest]]; repeat split; intro H;
    try reflexivity; discriminate H.
Qed.

(** X8. With an id, toggleKaratStatus passes a failure of getKaratById
    to next without asking for any update; otherwise it asks the
    service for one update that carries nothing but a status and an
    isActive in agreement with each other: status "inactive" when the
    stored status is "active", and status "active" for any other stored
    status. *)
Theorem toggleKaratStatus_asks_for_agreeing_pair :
  forall svc c id adminId,
    id <> "" ->
    match Service.getKaratById svc c id with
    | inl e => toggleKaratStatus svc c (Some id) adminId = (Next e, c)
    | inr cur =>
        let newStatus := flipped (status cur) in
        toggleKaratStatus svc c (Some id) adminId
        = handle c (
              updated <- Service.updateKarat svc c id (toggleData newStatus) adminId ;;
              ret (Json 200 ("Karat status updated to " ++ newStatus)
                        (Karat (fst updated)),
                   snd updated))
        /\ consistentStatusFields (toggleData newStatus)
        /\ (status cur = "active" -> newStatus = "inactive")
        /\ (status cur <> "active" -> newStatus = "active")
    end.
Proof.
  intros svc c id adminId Hid. unfold toggleKaratStatus.
  rewrite (requireId_some id Hid). cbn [bind ret].
  destruct (Service.getKaratById svc c id) as [e|cur]; [reflexivity|].
  cbv zeta. split; [reflexivity|]. split; [apply consistent_toggleData|].
  unfold flipped. split.
  - intros ->. reflexivity.
  - intros H. apply String.eqb_neq in H. rewrite H. reflexivity.
Qed.

Lemma toggleKaratStatus_asks_for_agreeing_pair_witness :
  match Service.getKaratById KaratMasterService.service [Sample.k22] Sample.id2 with
  | inl e =>
      toggleKaratStatus KaratMasterService.service [Sample.k22] (Some Sample.id2)
                        Sample.admin
      = (Next e, [Sample.k22])
  | inr cur =>
      let newStatus := flipped (status cur) in
      toggleKaratStatus KaratMasterService.service [Sample.k22] (Some Sample.id2)
                        Sample.admin
      = handle [Sample.k22] (
            updated <- Service.updateKarat KaratMasterService.service [Sample.k22]
                         Sample.id2 (toggleData newStatus) Sample.admin ;;
            ret (Json 200 ("Karat status updated to " ++ newStatus)
                      (Karat (fst updated)),
                 snd updated))
      /\ consistentStatusFields (toggleData newStatus)
      /\ (status cur = "active" -> newStatus = "inactive")
      /\ (status cur <> "active" -> newStatus = "active")
  end.
Proof.
  apply (toggleKaratStatus_asks_for_agreeing_pair
           KaratMasterService.service [Sample.k22] Sample.id2 Sample.admin).
  discriminate.
Defined.

(* ================================================================== *)
(** ** The model: hook, schema, statics and the index *)
(* ================================================================== *)

Lemma karatCode_upperCased : forall d, karatCode (upperCased d) = toUpperCase (karatCode d).
Proof. intros []. reflexivity. Qed.

Lemma preSave_this :
  forall d,
    (if negb (String.eqb (karatCode d) "")
     then setKaratCode d (toUpperCase (karatCode d)) else d) = upperCased d.
Proof.
  intros d. unfold upperCased. destruct (String.eqb (karatCode d) "") eqn:E; [|reflexivity].
  simpl. apply String.eqb_eq in E. rewrite E. simpl. rewrite <- E.
  symmetry. apply setKaratCode_same.
Qed.

Lemma preSave_eq :
  forall d,
    preSave d = if SFleb (maximum d) (minimum d) then throw minMaxHookError
                else ret (upperCased d).
Proof.
  intros d. unfold preSave. rewrite preSave_this.
  replace (minimum (upperCased d)) with (minimum d) by (destruct d; reflexivity).
  replace (maximum (upperCased d)) with (maximum d) by (destruct d; reflexivity).
  rewrite ge_numbers_leb. reflexivity.
Qed.

Lemma leb_nan_l : forall x y, isNaNNumber x = true -> SFleb x y = false.
Proof. intros [sx|sx| |sx mx ex] y H; try discriminate H. reflexivity. Qed.

Lemma leb_nan_r : forall x y, isNaNNumber y = true -> SFleb x y = false.
Proof.
  intros x [sy|sy| |sy my ey] H; try discriminate H. destruct x; reflexivity.
Qed.

(** X9. The pre-save hook refuses a document exactly when its maximum
    is at most its minimum; a document with NaN for either bound
    passes. What passes is the document with its code upper-cased and
    nothing else changed, and the hook run on its own result gives that
    result again. *)
Theorem preSave_refuses_iff_and_settles :
  forall d,
    ((exists e, preSave d = inl e) <-> SFleb (maximum d) (minimum d) = true)
    /\ (SFleb (maximum d) (minimum d) = true -> preSave d = throw minMaxHookError)
    /\ (isNaNNumber (minimum d) = true \/ isNaNNumber (maximum d) = true ->
        preSave d = ret (upperCased d))
    /\ (forall d', preSave d = inr d' -> d' = upperCased d /\ preSave d' = inr d').
Proof.
  intros d. rewrite preSave_eq. split; [|split; [|split]].
  - destruct (SFleb (maximum d) (minimum d)); split.
    + reflexivity.
    + intros _. eexists. reflexivity.
    + intros [e H]. discriminate H.
    + discriminate.
  - intros ->. reflexivity.
  - intros [H | H].
    + rewrite (leb_nan_r _ _ H). reflexivity.
    + rewrite (leb_nan_l _ _ H). reflexivity.
  - intros d' H. destruct (SFleb (maximum d) (minimum d)) eqn:L; [discriminate H|].
    injection H as <-. split; [reflexivity|].
    rewrite preSave_eq.
    replace (minimum (upperCased d)) with (minimum d) by (destruct d; reflexivity).
    replace (maximum (upperCased d)) with (maximum d) by (destruct d; reflexivity).
    rewrite L. unfold ret. f_equal.
    unfold upperCased at 1. rewrite karatCode_upperCased, toUpperCase_idem.
    destruct d; reflexivity.
Qed.

Lemma upperChar_letter_or_digit :
  forall c, isCodeChar (upperChar c) = isLetterOrDigit c.
Proof. intros [[] [] [] [] [] [] [] []]; reflexivity. Qed.

Lemma allChars_toUpperCase :
  forall s, allChars isCodeChar (toUpperCase s) = allChars isLetterOrDigit s.
Proof.
  induction s as [|c s IH]; simpl; [reflexivity|].
  rewrite upperChar_letter_or_digit, IH. reflexivity.
Qed.

Lemma length_toUpperCase : forall s, String.length (toUpperCase s) = String.length s.
Proof. induction s as [|c s IH]; simpl; [reflexivity|]. rewrite IH. reflexivity. Qed.

Lemma toUpperCase_empty : forall s, String.eqb (toUpperCase s) "" = String.eqb s "".
Proof. intros [|c s]; reflexivity. Qed.

(** X10. The schema's setters run before its validators: a karat code
    of ASCII characters passes the schema exactly when, trimmed, it is
    1 to 10 characters long and made of letters of either case and
    digits. Lower-case letters never fail the match on upper-case
    letters, and white space fails it only inside the code. *)
Theorem karatCode_schema_accepts_iff :
  forall v,
    isAscii v = true ->
    (validateKaratCode (karatCodeSetter v) = None
     <-> (trim v <> ""
          /\ (String.length (trim v) <= 10)%nat
          /\ allChars isLetterOrDigit (trim v) = true)).
Proof.
  intros v _. unfold karatCodeSetter. rewrite toUpperCase_trim.
  unfold validateKaratCode, matchesCodePattern.
  rewrite toUpperCase_empty, length_toUpperCase, allChars_toUpperCase.
  destruct (String.eqb (trim v) "") eqn:E.
  - apply String.eqb_eq in E. split; [discriminate|]. intros [H _]. contradiction.
  - apply String.eqb_neq in E.
    destruct (10 <? String.length (trim v))%nat eqn:L.
    + apply Nat.ltb_lt in L. split; [discriminate|]. intros [_ [H _]]. lia.
    + apply Nat.ltb_ge in L. simpl.
      destruct (allChars isLetterOrDigit (trim v)); simpl.
      * split; [intros _; repeat split; assumption | reflexivity].
      * split; [discriminate|]. intros [_ [_ H]]. discriminate H.
Qed.

Lemma karatCode_schema_accepts_iff_witness :
  validateKaratCode (karatCodeSetter " k18 ") = None
  <-> (trim " k18 " <> ""
       /\ (String.length (trim " k18 ") <= 10)%nat
       /\ allChars isLetterOrDigit (trim " k18 ") = true).
Proof.
  apply (karatCode_schema_accepts_iff " k18 "). vm_compute. reflexivity.
Defined.

Lemma find_none_intro :
  forall (q : doc -> bool) l, (forall d, In d l -> q d = false) -> find q l = None.
Proof.
  intros q l. induction l as [|x rest IH]; intros H; simpl; [reflexivity|].
  rewrite (H x (or_introl eq_refl)). apply IH. intros d Hin. apply H. right. exact Hin.
Qed.

Lemma save_new_fresh :
  forall d c saved c',
    save None d c = inr (saved, c') ->
    saved = upperCased d
    /\ c' = (c ++ [saved])%list
    /\ existsb (sameKey saved) c = false.
Proof.
  intros d c saved c'. unfold save.
  destruct (validate d); [|discriminate].
  rewrite preSave_eq. destruct (SFleb (maximum d) (minimum d)); [discriminate|].
  cbn [bind ret]. unfold insertOne.
  destruct (existsb (sameKey (upperCased d)) c) eqn:E; [discriminate|].
  cbn [bind ret]. intro H. injection H as <- <-. repeat split. exact E.
Qed.

(** X11. Save and look up: once a new document built from a code has
    been saved, isKaratCodeExists finds the trimmed code in its
    division under any spelling that differs from it by case only, and
    finds none when the new document itself is excluded: the unique
    index has kept every other holder of the pair out. *)
Theorem saved_code_is_found_and_alone :
  forall c newId code div descr purity lo hi adminId saved c' code',
    save None (construct newId code div descr purity lo hi adminId) c = inr (saved, c') ->
    toUpperCase code' = toUpperCase (trim code) ->
    isKaratCodeExists c' code' div None = true
    /\ (forall e, e <> newId -> isKaratCodeExists c' code' div (Some e) = true)
    /\ (newId <> "" -> isKaratCodeExists c' code' div (Some newId) = false).
Proof.
  intros c newId code div descr purity lo hi adminId saved c' code' S Hcode.
  apply save_new_fresh in S. destruct S as [Hsaved [Hc' Hfresh]].
  assert (Kc : karatCode saved = toUpperCase code').
  { rewrite Hsaved, karatCode_upperCased. cbn [construct karatCode].
    unfold karatCodeSetter. rewrite toUpperCase_trim, toUpperCase_idem. symmetry. exact Hcode. }
  assert (Kf : karatCodeSetter (toUpperCase code') = toUpperCase code').
  { rewrite filter_code, Hcode, <- toUpperCase_trim, trim_idem. reflexivity. }
  assert (Kd : division saved = div) by (rewrite Hsaved; reflexivity).
  assert (Ki : _id saved = newId) by (rewrite Hsaved; reflexivity).
  assert (Hin : In saved c') by (rewrite Hc'; apply in_or_app; right; left; reflexivity).
  assert (found : forall q, q saved = true ->
                            match findOne q c' with Some _ => true | None => false end = true).
  { intros q Hq. destruct (proj2 (findOne_some_iff q c') (ex_intro _ saved (conj Hin Hq)))
      as [d' ->]. reflexivity. }
  split; [|split].
  - unfold isKaratCodeExists. rewrite Kf. apply found.
    rewrite Kc, Kd, !String.eqb_refl. reflexivity.
  - intros e He. unfold isKaratCodeExists. rewrite Kf. apply found.
    rewrite Kc, Kd, !String.eqb_refl. simpl.
    destruct (String.eqb e ""); simpl; [reflexivity|].
    unfold hasId. rewrite Ki.
    destruct (String.eqb newId e) eqn:E; [|reflexivity].
    apply String.eqb_eq in E. exfalso. apply He. symmetry. exact E.
  - intros Hid. unfold isKaratCodeExists, findOne. rewrite Kf.
    rewrite find_none_intro; [reflexivity|].
    intros d Hd. simpl.
    apply String.eqb_neq in Hid. rewrite Hid. simpl.
    rewrite Hc' in Hd. apply in_app_or in Hd. destruct Hd as [Hd | [<- | []]].
    + assert (K : sameKey saved d = false).
      { destruct (sameKey saved d) eqn:K; [|reflexivity].
        rewrite <- Hfresh. symmetry. apply existsb_exists. exists d. split; assumption. }
      unfold sameKey in K. rewrite Kc, Kd in K.
      rewrite (String.eqb_sym (karatCode d)), (String.eqb_sym (division d)), K. reflexivity.
    + unfold hasId. rewrite Ki, String.eqb_refl, andb_false_r. reflexivity.
Qed.

Lemma saved_code_is_found_and_alone_witness :
  isKaratCodeExists [Sample.k22; Sample.k18] "k18" Sample.divisionA None = true
  /\ (forall e, e <> Sample.id1 ->
                isKaratCodeExists [Sample.k22; Sample.k18] "k18" Sample.divisionA (Some e)
                = true)
  /\ (Sample.id1 <> "" ->
      isKaratCodeExists [Sample.k22; Sample.k18] "k18" Sample.divisionA (Some Sample.id1)
      = false).
Proof.
  apply (saved_code_is_found_and_alone
           [Sample.k22] Sample.id1 " k18 " Sample.divisionA "18 Karat Gold"
           (Sample.num "75.0") (Sample.num "74.5") (Sample.num "75.5") Sample.admin
           Sample.k18 [Sample.k22; Sample.k18] "k18").
  - vm_compute. reflexivity.
  - vm_compute. reflexivity.
Defined.

Lemma existsb_find :
  forall (q : doc -> bool) l,
    existsb q l = match find q l with Some _ => true | None => false end.
Proof.
  intros q l. induction l as [|x rest IH]; simpl; [reflexivity|].
  destruct (q x); [reflexivity | exact IH].
Qed.

Lemma find_ext :
  forall (p q : doc -> bool) l, (forall d, p d = q d) -> find p l = find q l.
Proof.
  intros p q l H. induction l as [|x rest IH]; simpl; [reflexivity|].
  rewrite H, IH. reflexivity.
Qed.

Lemma find_filter :
  forall (p q : doc -> bool) l, find (fun d => p d && q d) l = find p (filter q l).
Proof.
  intros p q l. induction l as [|x rest IH]; simpl; [reflexivity|].
  destruct (q x); simpl.
  - rewrite andb_true_r. destruct (p x); [reflexivity | exact IH].
  - rewrite andb_false_r. exact IH.
Qed.

(** X12. The static predicts the unique index: saving a new document
    that the schema and the hook accept fails with the duplicate-key
    error exactly when isKaratCodeExists finds its code in its
    division, and otherwise appends the document as it is. *)
Theorem save_new_duplicate_iff_code_exists :
  forall d c,
    persistable d ->
    save None d c
    = if isKaratCodeExists c (karatCode d) (division d) None
      then throw DuplicateKey
      else ret (d, (c ++ [d])%list).
Proof.
  intros d c [V G]. unfold save. rewrite V, (preSave_valid d V G).
  cbn [bind ret]. unfold insertOne, isKaratCodeExists, findOne.
  rewrite existsb_find.
  apply validate_nil in V. destruct V as [Vcode _].
  apply validateKaratCode_none in Vcode. destruct Vcode as [Vchars _].
  rewrite (filter_code_chars _ Vchars).
  rewrite (find_ext (sameKey d)
                    (fun o => String.eqb (karatCode o) (karatCode d)
                              && String.eqb (division o) (division d) && true)).
  - destruct (find _ c); reflexivity.
  - intros o. unfold sameKey.
    rewrite (String.eqb_sym (karatCode d)), (String.eqb_sym (division d)), andb_true_r.
    reflexivity.
Qed.

Lemma save_new_duplicate_iff_code_exists_witness :
  save None Sample.k18 [Sample.k22]
  = (if isKaratCodeExists [Sample.k22] (karatCode Sample.k18) (division Sample.k18) None
     then throw DuplicateKey
     else ret (Sample.k18, ([Sample.k22] ++ [Sample.k18])%list))
  /\ save None Sample.k18 [Sample.k18]
     = (if isKaratCodeExists [Sample.k18] (karatCode Sample.k18) (division Sample.k18) None
        then throw DuplicateKey
        else ret (Sample.k18, ([Sample.k18] ++ [Sample.k18])%list)).
Proof.
  split; apply (save_new_duplicate_iff_code_exists Sample.k18);
    split; vm_compute; reflexivity.
Defined.

(** X13. Excluding an id from isKaratCodeExists comes to asking the
    plain question of the collection without the documents of that id;
    an excludeId that is the empty string is falsy and excludes
    nothing. So a code found with an exclusion is found without it. *)
Theorem isKaratCodeExists_exclusion :
  forall c code div e,
    e <> "" ->
    isKaratCodeExists c code div (Some e) = isKaratCodeExists (others e c) code div None
    /\ isKaratCodeExists c code div (Some "") = isKaratCodeExists c code div None
    /\ (isKaratCodeExists c code div (Some e) = true ->
        isKaratCodeExists c code div None = true).
Proof.
  intros c code div e He. apply String.eqb_neq in He.
  assert (E1 : isKaratCodeExists c code div (Some e)
               = isKaratCodeExists (others e c) code div None).
  { unfold isKaratCodeExists, findOne, others. simpl. rewrite He. simpl.
    rewrite (find_filter
               (fun d => String.eqb (karatCode d) (karatCodeSetter (toUpperCase code))
                         && String.eqb (division d) div)
               (fun d => negb (hasId e d)) c).
    rewrite (find_ext
               (fun d => String.eqb (karatCode d) (karatCodeSetter (toUpperCase code))
                         && String.eqb (division d) div && true)
               (fun d => String.eqb (karatCode d) (karatCodeSetter (toUpperCase code))
                         && String.eqb (division d) div)).
    - reflexivity.
    - intros d. apply andb_true_r. }
  split; [exact E1|]. split; [reflexivity|].
  rewrite E1. unfold isKaratCodeExists, findOne, others.
  destruct (find _ (filter _ c)) as [d|] eqn:F; [|discriminate]. intros _.
  apply find_some in F. destruct F as [Hin Hq].
  apply filter_In in Hin. destruct Hin as [Hin _].
  destruct (find _ c) as [d'|] eqn:F'; [reflexivity|].
  rewrite (find_none _ c F' d Hin) in Hq. discriminate Hq.
Qed.

Lemma isKaratCodeExists_exclusion_witness :
  isKaratCodeExists [Sample.k18; Sample.k22] "k18" Sample.divisionA (Some Sample.id1)
  = isKaratCodeExists (others Sample.id1 [Sample.k18; Sample.k22]) "k18" Sample.divisionA None
  /\ isKaratCodeExists [Sample.k18; Sample.k22] "k18" Sample.divisionA (Some "")
     = isKaratCodeExists [Sample.k18; Sample.k22] "k18" Sample.divisionA None
  /\ (isKaratCodeExists [Sample.k18; Sample.k22] "k18" Sample.divisionA (Some Sample.id1)
      = true ->
      isKaratCodeExists [Sample.k18; Sample.k22] "k18" Sample.divisionA None = true).
Proof.
  apply (isKaratCodeExists_exclusion [Sample.k18; Sample.k22] "k18" Sample.divisionA Sample.id1).
  discriminate.
Defined.

Lemma persistable_wellFormed : forall d, persistable d -> wellFormed d.
Proof.
  intros d [V G]. apply validate_nil in V.
  destruct V as [Vcode [Vdescr [Vpurity [Vmin [Vmax Vstatus]]]]].
  apply validateKaratCode_none in Vcode. destruct Vcode as [Vchars Vlen].
  pose proof (validateMinimum_none _ Vmin) as Nmin.
  pose proof (validateMaximum_none _ Vmax) as Nmax.
  unfold wellFormed. repeat split; try (apply Vchars); try (apply Vlen).
  - unfold validateDescription in Vdescr.
    destruct (description d) as [|ch rest]; [discriminate Vdescr|]. simpl. lia.
  - unfold validateDescription in Vdescr.
    destruct (String.eqb (description d) ""); [discriminate Vdescr|].
    destruct (200 <? String.length (description d))%nat eqn:L; [discriminate Vdescr|].
    apply Nat.ltb_ge in L. exact L.
  - unfold validateStandardPurity in Vpurity.
    destruct (isNaNNumber (standardPurity d)); [discriminate Vpurity|].
    rewrite ge_numbers_leb in Vpurity.
    destruct (SFleb (ofZ 0) (standardPurity d)) eqn:L; [first [exact L | reflexivity] | discriminate Vpurity].
  - unfold validateStandardPurity in Vpurity.
    destruct (isNaNNumber (standardPurity d)); [discriminate Vpurity|].
    destruct (negb (ge (Num (standardPurity d)) (Num (ofZ 0)))); [discriminate Vpurity|].
    change (le (Num (standardPurity d)) (Num (ofZ 100)))
      with (ge (Num (ofZ 100)) (Num (standardPurity d))) in Vpurity.
    rewrite ge_numbers_leb in Vpurity.
    destruct (SFleb (standardPurity d) (ofZ 100)) eqn:L; [first [exact L | reflexivity] | discriminate Vpurity].
  - unfold validateMinimum in Vmin. rewrite Nmin, ge_numbers_leb in Vmin.
    destruct (SFleb (ofZ 0) (minimum d)) eqn:L; [first [exact L | reflexivity] | discriminate Vmin].
  - pose proof (not_ge_lt _ _ Nmin Nmax G) as L.
    rewrite lt_numbers, Nmin, Nmax in L. exact L.
  - unfold validateStatus in Vstatus.
    destruct (String.eqb (status d) "active") eqn:A.
    + left. apply String.eqb_eq. exact A.
    + destruct (String.eqb (status d) "inactive") eqn:B; [|discriminate Vstatus].
      right. apply String.eqb_eq. exact B.
Qed.

(** X14. Whatever save lets through is well formed: the saved
    document has a code of 1 to 10 characters of A-Z and 0-9, a
    description of 1 to 200 characters, a standard purity from 0 to
    100, a minimum that is at least 0 and strictly below the maximum,
    none of them NaN, and a status that is "active" or "inactive"; and
    a collection of well-formed documents is one after the save, for a
    new document and for a stored one alike. *)
Theorem save_keeps_wellFormed :
  forall old d c saved c',
    save old d c = inr (saved, c') ->
    wellFormed saved /\ (Forall wellFormed c -> Forall wellFormed c').
Proof.
  intros old d c saved c' S.
  destruct (save_persistable _ _ _ _ _ S) as [P Hc'].
  pose proof (persistable_wellFormed saved P) as W.
  split; [exact W|]. intros F.
  destruct Hc' as [-> | ->].
  - apply Forall_app. split; [exact F|]. constructor; [exact W | constructor].
  - apply Forall_replaced; assumption.
Qed.

Lemma save_keeps_wellFormed_witness :
  wellFormed Sample.k18
  /\ (Forall wellFormed [Sample.k22] -> Forall wellFormed [Sample.k22; Sample.k18]).
Proof.
  apply (save_keeps_wellFormed None Sample.k18 [Sample.k22] Sample.k18
                               [Sample.k22; Sample.k18]).
  vm_compute. reflexivity.
Defined.

(** X15. A new document is listed at once: what save has stored for a
    newly built document is among the active karats getByDivision
    returns for its division, and among those of no other division. *)
Theorem saved_new_karat_is_listed :
  forall c newId code div descr purity lo hi adminId saved c',
    save None (construct newId code div descr purity lo hi adminId) c = inr (saved, c') ->
    In saved (getByDivision c' div)
    /\ forall div', div' <> div -> ~ In saved (getByDivision c' div').
Proof.
  intros c newId code div descr purity lo hi adminId saved c' S.
  apply save_new_fresh in S. destruct S as [Hsaved [Hc' _]].
  assert (Kd : division saved = div) by (rewrite Hsaved; reflexivity).
  assert (Ks : status saved = "active") by (rewrite Hsaved; reflexivity).
  assert (Ka : isActive saved = true) by (rewrite Hsaved; reflexivity).
  assert (Hin : In saved c') by (rewrite Hc'; apply in_or_app; right; left; reflexivity).
  split.
  - unfold getByDivision.
    apply (Permutation_in saved (Permutation_sym (sortByCode_perm _))).
    apply filter_In. split; [exact Hin|].
    rewrite Kd, Ks, Ka, !String.eqb_refl. reflexivity.
  - intros div' Hdiv H. unfold getByDivision in H.
    apply (Permutation_in saved (sortByCode_perm _)) in H.
    apply filter_In in H. destruct H as [_ H].
    rewrite Kd in H. apply String.eqb_neq in Hdiv.
    rewrite String.eqb_sym, Hdiv in H. discriminate H.
Qed.

Lemma saved_new_karat_is_listed_witness :
  In Sample.k18 (getByDivision [Sample.k22; Sample.k18] Sample.divisionA)
  /\ forall div', div' <> Sample.divisionA ->
                  ~ In Sample.k18 (getByDivision [Sample.k22; Sample.k18] div').
Proof.
  apply (saved_new_karat_is_listed
           [Sample.k22] Sample.id1 " k18 " Sample.divisionA "18 Karat Gold"
           (Sample.num "75.0") (Sample.num "74.5") (Sample.num "75.5") Sample.admin
           Sample.k18 [Sample.k22; Sample.k18]).
  vm_compute. reflexivity.
Defined.

(* ================================================================== *)
(** ** The application *)
(* ================================================================== *)

(** X16. The CORS origin function allows every request: whether the
    Origin header is absent, empty, one of the three listed origins or
    any other, it calls back with no error and true, so the list of
    allowed origins decides nothing. *)
Theorem corsOrigin_allows_every_origin :
  forall origin, App.corsOrigin origin = (None, true).
Proof.
  intros origin. unfold App.corsOrigin. destruct (_ || _)%bool; reflexivity.
Qed.
